(** * A2M query-gap cleaning: [read_a2m], [remove_query_gaps], [write_a2m]

    A shallow embedding of the alignment filter of plmc_mcp.  The three
    functions exist twice in the repository, once in the MCP tool module
    [src/tools/readme.py] and once in the standalone script
    [script/rm_a2m_query_gaps.py]; each copy is embedded in a module of
    its own ([Readme], [Script]).

    Modelling choices:
    - a Python [str] is a list of characters ([list ascii]); a
      one-character string is the character itself, so [''.join] of a
      generator of characters is the list it yields; the code compares
      characters with ['>'], ['.'], ['-'], line feed and carriage return
      only, and nothing else depends on the alphabet;
    - a raised exception is the [Raise] case of [result]; the statements
      that run before the raise keep their effect on the file system;
    - the file system is a finite map from paths to file contents; a file
      opened for reading in text mode has its line ends translated
      ([universal_newlines]) and is iterated line by line, each line with
      its terminator ([iter_lines]); [os.linesep] is taken to be a line
      feed, so text written is stored as it is;
    - [print] calls only report progress and are left out;
    - the script's [main] is taken from the point where [parse_args] has
      returned its two paths; the two tool functions of the MCP server,
      which rest on [pathlib], number formatting and the server itself,
      are not modelled. *)

From Stdlib Require Import Ascii String Sorted.
From stdpp Require Import list strings sorting gmap.

Abbreviation str := (list ascii).

(** A string literal as a Python [str]. *)
Definition py (s : string) : str := list_ascii_of_string s.
Arguments py : simpl never.

Abbreviation LF := "010"%char.
Abbreviation CR := "013"%char.

(** ** Exceptions *)

Inductive exn : Set :=
| IndexError
| FileNotFoundError
| CalledProcessError.

Inductive result (A : Type) : Type :=
| Ok (a : A)
| Raise (e : exn).
Arguments Ok {A} a.
Arguments Raise {A} e.

Global Instance result_ret : MRet result := λ A a, Ok a.
Global Instance result_bind : MBind result := λ A B f m,
  match m with
  | Ok a => f a
  | Raise e => Raise e
  end.

(** A [for] loop whose body may raise: the accumulator is threaded through
    the iterations and the first exception leaves the loop. *)
Fixpoint for_each {A S : Type} (body : S → A → result S) (xs : list A) (acc : S)
  : result S :=
  match xs with
  | [] => Ok acc
  | x :: xs' => acc' ← body acc x; for_each body xs' acc'
  end.

(** ** Python built-ins used by the code *)

Module Py.

(** [c in chars] and [c not in chars] for a one-character [c]. *)
Definition in_ (c : ascii) (chars : str) : bool := bool_decide (c ∈ chars).
Definition not_in (c : ascii) (chars : str) : bool := negb (in_ c chars).

(** [s.rstrip(chars)]: drop the longest suffix made of characters of
    [chars]. *)
Fixpoint rstrip (s chars : str) : str :=
  match s with
  | [] => []
  | c :: s' =>
      match rstrip s' chars with
      | [] => if in_ c chars then [] else [c]
      | t => c :: t
      end
  end.

(** [s.startswith(prefix)]. *)
Fixpoint startswith (s prefix : str) : bool :=
  match prefix, s with
  | [], _ => true
  | _ :: _, [] => false
  | p :: prefix', c :: s' => bool_decide (c = p) && startswith s' prefix'
  end.

(** [enumerate(s, start)]. *)
Fixpoint enumerate_from (start : nat) (s : str) : list (nat * ascii) :=
  match s with
  | [] => []
  | c :: s' => (start, c) :: enumerate_from (S start) s'
  end.
Definition enumerate (s : str) : list (nat * ascii) := enumerate_from 0 s.

(** [s[i]] for [0 <= i]: [IndexError] when [i] is out of range. *)
Definition getitem {A : Type} (s : list A) (i : nat) : result A :=
  match s !! i with
  | Some c => Ok c
  | None => Raise IndexError
  end.

(** [s[i:j]] for [0 <= i <= j]: the bounds are clipped to the length. *)
Definition slice (s : str) (i j : nat) : str := take (j - i) (drop i s).

(** [range(0, stop, step)] for [0 < step]: [0, step, 2*step, ...] below
    [stop]; it has [ceil (stop / step)] elements. *)
Definition range_step (stop step : nat) : list nat :=
  (λ k, k * step) <$> seq 0 ((stop + step - 1) `div` step).

(** [''.join(parts)]. *)
Definition join (parts : list str) : str := concat parts.

(** Reading in text mode with the default [newline=None]: [CR LF] and a
    lone [CR] both become [LF]. *)
Fixpoint universal_newlines (s : str) : str :=
  match s with
  | [] => []
  | c :: s' =>
      if bool_decide (c = CR) then
        match s' with
        | c' :: s'' =>
            if bool_decide (c' = LF) then LF :: universal_newlines s''
            else LF :: universal_newlines s'
        | [] => [LF]
        end
      else c :: universal_newlines s'
  end.

(** [for line in f]: the lines of a text, each with its line feed; a last
    line without a line feed is yielded too. *)
Fixpoint iter_lines (s : str) : list str :=
  match s with
  | [] => []
  | c :: s' =>
      if bool_decide (c = LF) then [LF] :: iter_lines s'
      else match iter_lines s' with
           | [] => [[c]]
           | l :: ls => (c :: l) :: ls
           end
  end.

(** The lines a file object opened with [open(filename, 'r')] yields. *)
Definition file_lines (content : str) : list str :=
  iter_lines (universal_newlines content).

End Py.

(** ** Records and the file system *)

(** A [(header, sequence)] tuple. *)
Abbreviation record := (str * str)%type.

(** A computation on the file system that may raise. *)
Definition io (A : Type) : Type :=
  gmap string str → result A * gmap string str.

Global Instance io_ret : MRet io := λ A a fs, (Ok a, fs).
Global Instance io_bind : MBind io := λ A B f m fs,
  match m fs with
  | (Ok a, fs') => f a fs'
  | (Raise e, fs') => (Raise e, fs')
  end.

(** A computation without effect on the file system, run inside [io]. *)
Definition lift {A : Type} (r : result A) : io A := λ fs, (r, fs).

(** ** [src/tools/readme.py] *)

Module Readme.

(** The variables of the loop of [read_a2m]. *)
Record reader : Type := Reader {
  sequences : list record;
  current_header : option str;
  current_seq : list str
}.

(** [if current_header is not None:
       sequences.append((current_header, ''.join(current_seq)))] *)
Definition save (st : reader) : list record :=
  match current_header st with
  | Some header => sequences st ++ [(header, Py.join (current_seq st))]
  | None => sequences st
  end.

(** One iteration of [for line in f]. *)
Definition read_line (st : reader) (line : str) : reader :=
  let line := Py.rstrip line [LF; CR] in
  if Py.startswith line (py ">") then
    Reader (save st) (Some line) []
  else
    Reader (sequences st) (current_header st) (current_seq st ++ [line]).

(** The body of [read_a2m] on the lines of the opened file. *)
Definition read_a2m_lines (lines : list str) : list record :=
  save (fold_left read_line lines (Reader [] None [])).

Definition read_a2m (filename : string) : io (list record) := λ fs,
  match fs !! filename with
  | Some content => (Ok (read_a2m_lines (Py.file_lines content)), fs)
  | None => (Raise FileNotFoundError, fs)
  end.

(** [[i for i, char in enumerate(query_seq) if char not in '.-']] *)
Definition non_gap_positions (query_seq : str) : list nat :=
  fst <$> List.filter (λ '(i, char), Py.not_in char (py ".-"))
                      (Py.enumerate query_seq).

(** [''.join(seq[i] for i in positions)] *)
Definition cleaned_seq (seq : str) (positions : list nat) : result str :=
  for_each (λ acc i, c ← Py.getitem seq i; Ok (acc ++ [c])) positions [].

Definition remove_query_gaps (sequences : list record) : result (list record) :=
  match sequences with
  | [] => Ok sequences
  | (query_header, query_seq) :: _ =>
      let positions := non_gap_positions query_seq in
      for_each (λ cleaned_sequences '(header, seq),
                  cleaned ← cleaned_seq seq positions;
                  Ok (cleaned_sequences ++ [(header, cleaned)]))
               sequences []
  end.

(** What [write_a2m] writes to the opened file, one [f.write] after the
    other. *)
Definition write_record (buf : str) (r : record) : str :=
  let '(header, seq) := r in
  fold_left (λ buf i, buf ++ Py.slice seq i (i + 80) ++ [LF])
            (Py.range_step (length seq) 80)
            (buf ++ header ++ [LF]).

Definition write_a2m_text (sequences : list record) : str :=
  fold_left write_record sequences [].

Definition write_a2m (sequences : list record) (filename : string) : io unit :=
  λ fs, (Ok tt, <[filename := write_a2m_text sequences]> fs).

(** [convert_a3m_to_a2m] runs the external converter and then cleans the
    file it produced, in place.  The converter is a parameter:
    [subprocess_run cmd] stands for
    [subprocess.run(cmd, check=True, capture_output=True, text=True)],
    which raises when the program exits with a non-zero status. *)
Section Convert.
Variable REFORMAT_PL : string.
Variable subprocess_run : list string → io unit.

Definition convert_a3m_to_a2m (a3m_file a2m_file : string) : io unit :=
  subprocess_run [REFORMAT_PL; "a3m"; "a2m"; a3m_file; a2m_file]%string;;
  sequences ← read_a2m a2m_file;
  match sequences with
  | _ :: _ =>
      query ← lift (Py.getitem sequences 0);
      cleaned_sequences ← lift (remove_query_gaps sequences);
      new_query ← lift (Py.getitem cleaned_sequences 0);
      write_a2m cleaned_sequences a2m_file
  | [] => mret tt
  end.
End Convert.

End Readme.

(** ** [script/rm_a2m_query_gaps.py] *)

Module Script.

(** The variables of the loop of [read_a2m]. *)
Record reader : Type := Reader {
  sequences : list record;
  current_header : option str;
  current_seq : list str
}.

Definition save (st : reader) : list record :=
  match current_header st with
  | Some header => sequences st ++ [(header, Py.join (current_seq st))]
  | None => sequences st
  end.

Definition read_line (st : reader) (line : str) : reader :=
  let line := Py.rstrip line [LF; CR] in
  if Py.startswith line (py ">") then
    Reader (save st) (Some line) []
  else
    Reader (sequences st) (current_header st) (current_seq st ++ [line]).

Definition read_a2m_lines (lines : list str) : list record :=
  save (fold_left read_line lines (Reader [] None [])).

Definition read_a2m (filename : string) : io (list record) := λ fs,
  match fs !! filename with
  | Some content => (Ok (read_a2m_lines (Py.file_lines content)), fs)
  | None => (Raise FileNotFoundError, fs)
  end.

Definition non_gap_positions (query_seq : str) : list nat :=
  fst <$> List.filter (λ '(i, char), Py.not_in char (py ".-"))
                      (Py.enumerate query_seq).

Definition cleaned_seq (seq : str) (positions : list nat) : result str :=
  for_each (λ acc i, c ← Py.getitem seq i; Ok (acc ++ [c])) positions [].

Definition remove_query_gaps (sequences : list record) : result (list record) :=
  match sequences with
  | [] => Ok sequences
  | (query_header, query_seq) :: _ =>
      let positions := non_gap_positions query_seq in
      for_each (λ cleaned_sequences '(header, seq),
                  cleaned ← cleaned_seq seq positions;
                  Ok (cleaned_sequences ++ [(header, cleaned)]))
               sequences []
  end.

Definition write_record (buf : str) (r : record) : str :=
  let '(header, seq) := r in
  fold_left (λ buf i, buf ++ Py.slice seq i (i + 80) ++ [LF])
            (Py.range_step (length seq) 80)
            (buf ++ header ++ [LF]).

Definition write_a2m_text (sequences : list record) : str :=
  fold_left write_record sequences [].

Definition write_a2m (sequences : list record) (filename : string) : io unit :=
  λ fs, (Ok tt, <[filename := write_a2m_text sequences]> fs).

(** How a run of the script ends: [main] returns, [sys.exit(code)] is
    called, or an exception raised by one of the functions above is not
    caught. *)
Inductive outcome : Set :=
| Returned
| SystemExit (code : nat)
| Uncaught (e : exn).

(** [main], once [parser.parse_args()] has given [args.input] and
    [args.output]. *)
Definition main (input output : string)
  : gmap string str → outcome * gmap string str := λ fs,
  match read_a2m input fs with
  | (Raise e, fs') => (Uncaught e, fs')
  | (Ok sequences, fs') =>
      match sequences with
      | [] => (SystemExit 1, fs')
      | _ :: _ =>
          match (query ← lift (Py.getitem sequences 0);
                 cleaned_sequences ← lift (remove_query_gaps sequences);
                 new_query ← lift (Py.getitem cleaned_sequences 0);
                 write_a2m cleaned_sequences output) fs' with
          | (Ok _, fs'') => (Returned, fs'')
          | (Raise e, fs'') => (Uncaught e, fs'')
          end
      end
  end.

End Script.

(** ** Vocabulary of the statements *)

(** The number of characters of [s] that are neither ['.'] nor ['-']. *)
Definition non_gap_count (s : str) : nat :=
  length (List.filter (λ c, negb (bool_decide (c = "."%char ∨ c = "-"%char))) s).

(** What one iteration of the loop of [remove_query_gaps] appends. *)
Definition clean_record (positions : list nat) (r : record) : result record :=
  cleaned ← Readme.cleaned_seq r.2 positions; Ok (r.1, cleaned).

(** The slices written for one sequence, in the order of the loop. *)
Definition residue_lines (seq : str) : list str :=
  (λ i, Py.slice seq i (i + 80)) <$> Py.range_step (length seq) 80.

(** The loop variables of the script's reader, seen as those of the tool
    module's reader. *)
Definition reader_of (st : Script.reader) : Readme.reader :=
  Readme.Reader (Script.sequences st) (Script.current_header st)
                (Script.current_seq st).

(** A line of the file that opens a record. *)
Definition is_header (line : str) : bool :=
  Py.startswith (Py.rstrip line [LF; CR]) (py ">").

(** A sequence without its ['.'] and ['-']. *)
Definition without_gaps (s : str) : str :=
  List.filter (λ c, negb (bool_decide (c = "."%char ∨ c = "-"%char))) s.

(** A text without line feed and carriage return. *)
Definition one_line (s : str) : Prop := (LF ∉ s) ∧ (CR ∉ s).

(** A record as [read_a2m] produces them: the label starts with ['>'], and
    neither the label nor the sequence holds a line end. *)
Definition well_formed (r : record) : Prop :=
  Py.startswith r.1 (py ">") = true ∧ one_line r.1 ∧ one_line r.2.

(** No line of 80 written for the sequence starts with ['>']. *)
Definition wraps_cleanly (s : str) : Prop :=
  ∀ k, s !! (k * 80) ≠ Some (">"%char).

(** The lines written for one record, without their line feeds. *)
Definition record_lines (r : record) : list str := r.1 :: residue_lines r.2.

(** What holds of the variables of the loop of [read_a2m] on the lines of a
    file. *)
Definition reader_invariant (st : Readme.reader) : Prop :=
  Forall well_formed (Readme.sequences st)
  ∧ (∀ header, Readme.current_header st = Some header →
       Py.startswith header (py ">") = true ∧ one_line header)
  ∧ Forall one_line (Readme.current_seq st).

(** The text whose lines are [lines], each ended by a line feed (used to
    write down concrete files). *)
Definition text_of (lines : list string) : str :=
  mjoin ((λ l, py l ++ [LF]) <$> lines).

(** * Properties *)

(** ** The error monad and the loops *)

Section Loops.
Context {A B : Type}.

(** A loop that appends one computed element per iteration is a monadic
    map: it succeeds exactly when every element does. *)
Lemma for_each_append_Ok (f : A → result B) (xs : list A) (acc ys : list B) :
  Forall2 (λ x y, f x = Ok y) xs ys →
  for_each (λ acc x, y ← f x; Ok (acc ++ [y])) xs acc = Ok (acc ++ ys).
Proof.
  intros H. revert acc.
  induction H as [|x y xs ys Hx _ IH]; intros acc; simpl.
  - by rewrite app_nil_r.
  - rewrite Hx. simpl. rewrite IH. by rewrite <- app_assoc.
Qed.

Lemma for_each_append_inv (f : A → result B) (xs : list A) (acc out : list B) :
  for_each (λ acc x, y ← f x; Ok (acc ++ [y])) xs acc = Ok out →
  ∃ ys, out = acc ++ ys ∧ Forall2 (λ x y, f x = Ok y) xs ys.
Proof.
  revert acc. induction xs as [|x xs IH]; intros acc; simpl.
  - intros [= <-]. exists []. by rewrite app_nil_r.
  - destruct (f x) as [y|e] eqn:Hx; simpl; [|done].
    intros (ys & -> & Hys)%IH. exists (y :: ys).
    split; [by rewrite <- app_assoc | by constructor].
Qed.

Lemma for_each_append_Raise (f : A → result B) (xs : list A) (acc : list B) e :
  for_each (λ acc x, y ← f x; Ok (acc ++ [y])) xs acc = Raise e →
  Exists (λ x, f x = Raise e) xs.
Proof.
  revert acc. induction xs as [|x xs IH]; intros acc; simpl; [done|].
  destruct (f x) as [y|e'] eqn:Hx; simpl.
  - intros ?%IH. by constructor 2.
  - intros [= ->]. by constructor 1.
Qed.

End Loops.

Lemma for_each_ext {A S : Type} (body1 body2 : S → A → result S) xs acc :
  (∀ acc x, body1 acc x = body2 acc x) →
  for_each body1 xs acc = for_each body2 xs acc.
Proof.
  intros Hbody. revert acc. induction xs as [|x xs IH]; intros acc; simpl; [done|].
  rewrite Hbody. destruct (body2 acc x); simpl; [apply IH | done].
Qed.

(** ** The gap test and the retained columns *)

Lemma not_in_gaps (c : ascii) :
  Py.not_in c (py ".-") = true ↔ c ≠ "."%char ∧ c ≠ "-"%char.
Proof.
  unfold Py.not_in, Py.in_. rewrite negb_true_iff, bool_decide_eq_false.
  change (py ".-") with ["."%char; "-"%char].
  rewrite !elem_of_cons, elem_of_nil. tauto.
Qed.

Section Positions.
Local Abbreviation keep :=
  (λ '(i, char), Py.not_in char (py ".-")).

Lemma enumerate_from_S n s :
  Py.enumerate_from (S n) s = prod_map S id <$> Py.enumerate_from n s.
Proof.
  revert n. induction s as [|c s IH]; intros n; simpl; [done|].
  by rewrite IH.
Qed.

Lemma filter_keep_shift (l : list (nat * ascii)) :
  fst <$> List.filter keep (prod_map S id <$> l)
  = S <$> (fst <$> List.filter keep l).
Proof.
  induction l as [|[i c] l IH]; csimpl; [done|].
  destruct (Py.not_in c (py ".-")); csimpl; by rewrite IH.
Qed.

Lemma non_gap_positions_nil : Readme.non_gap_positions [] = [].
Proof. done. Qed.

Lemma non_gap_positions_cons c s :
  Readme.non_gap_positions (c :: s)
  = (if Py.not_in c (py ".-") then [0] else [])
      ++ (S <$> Readme.non_gap_positions s).
Proof.
  unfold Readme.non_gap_positions, Py.enumerate. simpl.
  rewrite enumerate_from_S.
  destruct (Py.not_in c (py ".-")); simpl;
    by rewrite <- filter_keep_shift.
Qed.
End Positions.

Lemma elem_of_non_gap_positions (s : str) (i : nat) :
  i ∈ Readme.non_gap_positions s
  ↔ ∃ c, s !! i = Some c ∧ c ≠ "."%char ∧ c ≠ "-"%char.
Proof.
  revert i. induction s as [|c s IH]; intros i.
  - rewrite non_gap_positions_nil, elem_of_nil. naive_solver.
  - rewrite non_gap_positions_cons, elem_of_app, list_elem_of_fmap.
    destruct i as [|i]; simpl.
    + destruct (Py.not_in c (py ".-")) eqn:Hc.
      * apply not_in_gaps in Hc. rewrite list_elem_of_singleton. naive_solver.
      * assert (¬ (c ≠ "."%char ∧ c ≠ "-"%char))
          by (rewrite <- not_in_gaps; congruence).
        rewrite elem_of_nil. naive_solver.
    + split.
      * intros [H|(j & [= ->] & Hj)]; [|by apply IH].
        destruct (Py.not_in c (py ".-")); set_solver.
      * intros H%IH. right. eauto.
Qed.

Lemma non_gap_positions_sorted (s : str) :
  StronglySorted lt (Readme.non_gap_positions s).
Proof.
  induction s as [|c s IH].
  - rewrite non_gap_positions_nil. constructor.
  - rewrite non_gap_positions_cons. apply StronglySorted_app_2.
    + intros x y Hx (j & -> & _)%list_elem_of_fmap.
      destruct (Py.not_in c (py ".-")); set_solver by lia.
    + destruct (Py.not_in c (py ".-")); repeat constructor.
    + clear -IH. induction IH as [|j l _ IHl Hj]; simpl; constructor; [done|].
      rewrite Forall_fmap. eapply Forall_impl; [exact Hj|]. simpl. lia.
Qed.

Lemma non_gap_positions_lt (s : str) (i : nat) :
  i ∈ Readme.non_gap_positions s → i < length s.
Proof.
  intros (c & Hc & _)%elem_of_non_gap_positions. by eapply lookup_lt_Some.
Qed.

Lemma length_non_gap_positions (s : str) :
  length (Readme.non_gap_positions s) = non_gap_count s.
Proof.
  unfold non_gap_count. induction s as [|c s IH]; [done|].
  rewrite non_gap_positions_cons, length_app, length_fmap, IH. simpl.
  destruct (Py.not_in c (py ".-")) eqn:Hc.
  - apply not_in_gaps in Hc. rewrite bool_decide_eq_false_2 by tauto. done.
  - rewrite bool_decide_eq_true_2; [done|].
    destruct (decide (c = "."%char)), (decide (c = "-"%char)); auto.
    exfalso. assert (Py.not_in c (py ".-") = true) by by apply not_in_gaps.
    congruence.
Qed.

Lemma non_gap_positions_no_gap (s : str) :
  non_gap_count s = length s → Readme.non_gap_positions s = seq 0 (length s).
Proof.
  unfold non_gap_count. induction s as [|c s IH]; [done|].
  rewrite non_gap_positions_cons. simpl.
  pose proof (List.filter_length_le
    (λ c, negb (bool_decide (c = "."%char ∨ c = "-"%char))) s) as Hle.
  destruct (bool_decide (c = "."%char ∨ c = "-"%char)) eqn:Hc; simpl.
  - lia.
  - intros [= Hlen]. rewrite IH by done. rewrite fmap_S_seq.
    apply bool_decide_eq_false in Hc.
    assert (Py.not_in c (py ".-") = true) as -> by (apply not_in_gaps; tauto).
    done.
Qed.

(** ** Projecting one record on the retained columns *)

Lemma getitem_Ok {A : Type} (s : list A) (i : nat) (c : A) :
  Py.getitem s i = Ok c ↔ s !! i = Some c.
Proof. unfold Py.getitem. destruct (s !! i); naive_solver. Qed.

Lemma getitem_Raise {A : Type} (s : list A) (i : nat) (e : exn) :
  Py.getitem s i = Raise e ↔ e = IndexError ∧ length s ≤ i.
Proof.
  unfold Py.getitem. destruct (s !! i) eqn:Hi.
  - apply lookup_lt_Some in Hi. split; [done | lia].
  - apply lookup_ge_None in Hi. naive_solver.
Qed.

Lemma cleaned_seq_Ok (seq : str) (positions : list nat) (out : str) :
  Readme.cleaned_seq seq positions = Ok out
  ↔ Forall2 (λ i c, seq !! i = Some c) positions out.
Proof.
  unfold Readme.cleaned_seq. split.
  - intros (ys & -> & Hys)%for_each_append_inv. simpl.
    eapply Forall2_impl; [exact Hys|]. intros i c. by rewrite getitem_Ok.
  - intros H. rewrite (for_each_append_Ok _ _ _ out); [done|].
    eapply Forall2_impl; [exact H|]. intros i c. by rewrite getitem_Ok.
Qed.

Lemma cleaned_seq_Raise (seq : str) (positions : list nat) (e : exn) :
  Readme.cleaned_seq seq positions = Raise e
  ↔ e = IndexError ∧ Exists (λ i, length seq ≤ i) positions.
Proof.
  split.
  - intros H%for_each_append_Raise. split.
    + apply Exists_exists in H as (i & _ & Hi).
      by apply getitem_Raise in Hi as [-> _].
    + eapply Exists_impl; [exact H|]. intros i Hi.
      by apply getitem_Raise in Hi as [_ ?].
  - intros [-> H]. destruct (Readme.cleaned_seq seq positions) as [out|e] eqn:Hr.
    + exfalso. apply cleaned_seq_Ok in Hr.
      apply Exists_exists in H as (i & Hi & Hlen).
      apply list_elem_of_lookup in Hi as [k Hk].
      destruct (Forall2_lookup_l _ _ _ _ _ Hr Hk) as (c & _ & Hc).
      apply lookup_lt_Some in Hc. lia.
    + apply for_each_append_Raise, Exists_exists in Hr as (i & _ & Hi).
      apply getitem_Raise in Hi as [-> _]. done.
Qed.

(** Reading a text at strictly ascending positions only deletes characters. *)
Lemma lookup_ascending_sublist (seq : str) (positions : list nat) (out : str) :
  StronglySorted lt positions →
  Forall2 (λ i c, seq !! i = Some c) positions out →
  out `sublist_of` seq.
Proof.
  revert positions out. induction seq as [|x seq IH]; intros positions out Hs H.
  - destruct H as [|i c ? ? Hi]; [constructor | done].
  - destruct H as [|i c positions out Hi H]; [apply sublist_nil_l|].
    apply StronglySorted_cons in Hs as [Hlt Hs].
    assert (Forall2 (λ j c, seq !! j = Some c) (pred <$> positions) out) as H'.
    { apply Forall2_fmap_l. apply Forall2_same_length_lookup.
      split; [by eapply Forall2_length|].
      intros k j d Hj Hd. destruct (Forall2_lookup_l _ _ _ _ _ H Hj) as (d' & Hd' & Hjd).
      assert (d' = d) as -> by congruence.
      rewrite Forall_forall in Hlt. apply list_elem_of_lookup_2, Hlt in Hj.
      destruct j; [lia | done]. }
    assert (StronglySorted lt (pred <$> positions)) as Hs'.
    { clear -Hs Hlt. induction Hs as [|j l _ IHl Hj]; csimpl; constructor.
      - apply IHl. by inversion Hlt.
      - rewrite Forall_fmap. inversion Hlt; subst.
        rewrite Forall_forall in *. intros y Hy. simpl.
        specialize (Hj _ Hy). lia. }
    destruct i as [|i]; simpl in Hi.
    + injection Hi as ->. apply sublist_skip. by eapply IH.
    + apply sublist_cons. apply (IH (i :: (pred <$> positions))); [|by constructor].
      apply StronglySorted_cons. split; [|done].
      rewrite Forall_fmap. rewrite Forall_forall in *. intros y Hy. simpl.
      specialize (Hlt _ Hy). lia.
Qed.

(** ** [remove_query_gaps] as a map over the records *)

Lemma remove_query_gaps_loop query_header query_seq rest :
  Readme.remove_query_gaps ((query_header, query_seq) :: rest)
  = for_each (λ acc r,
                y ← clean_record (Readme.non_gap_positions query_seq) r;
                Ok (acc ++ [y]))
             ((query_header, query_seq) :: rest) [].
Proof.
  unfold Readme.remove_query_gaps. apply for_each_ext.
  intros acc [header seq]. unfold clean_record. simpl.
  by destruct (Readme.cleaned_seq _ _).
Qed.

Lemma clean_record_Ok positions (r r' : record) :
  clean_record positions r = Ok r'
  ↔ r'.1 = r.1 ∧ Forall2 (λ i c, r.2 !! i = Some c) positions r'.2.
Proof.
  unfold clean_record. rewrite <- cleaned_seq_Ok.
  destruct (Readme.cleaned_seq _ _) as [out|e]; destruct r' as [h' s']; simpl;
    naive_solver.
Qed.

Lemma clean_record_Raise positions (r : record) e :
  clean_record positions r = Raise e
  ↔ e = IndexError ∧ Exists (λ i, length r.2 ≤ i) positions.
Proof.
  unfold clean_record. rewrite <- cleaned_seq_Raise.
  destruct (Readme.cleaned_seq _ _) as [out|e']; simpl; naive_solver.
Qed.

Lemma remove_query_gaps_Ok query_header query_seq rest out :
  Readme.remove_query_gaps ((query_header, query_seq) :: rest) = Ok out
  ↔ Forall2 (λ r r', r'.1 = r.1 ∧
               Forall2 (λ i c, r.2 !! i = Some c)
                       (Readme.non_gap_positions query_seq) r'.2)
            ((query_header, query_seq) :: rest) out.
Proof.
  rewrite remove_query_gaps_loop. split.
  - intros (ys & -> & H)%for_each_append_inv. simpl.
    eapply Forall2_impl; [exact H|]. intros r r'. by rewrite clean_record_Ok.
  - intros H. rewrite (for_each_append_Ok _ _ _ out); [done|].
    eapply Forall2_impl; [exact H|]. intros r r'. by rewrite clean_record_Ok.
Qed.

Lemma remove_query_gaps_Raise query_header query_seq rest e :
  Readme.remove_query_gaps ((query_header, query_seq) :: rest) = Raise e
  ↔ e = IndexError ∧
    ∃ r i, r ∈ (query_header, query_seq) :: rest ∧
           i ∈ Readme.non_gap_positions query_seq ∧ length r.2 ≤ i.
Proof.
  split.
  - rewrite remove_query_gaps_loop.
    intros H%for_each_append_Raise. apply Exists_exists in H as (r & Hr & H).
    apply clean_record_Raise in H as [-> H].
    apply Exists_exists in H as (i & Hi & Hlen). eauto 10.
  - intros (-> & r & i & Hr & Hi & Hlen).
    destruct (Readme.remove_query_gaps _) as [out|e] eqn:Hres.
    + exfalso. apply remove_query_gaps_Ok in Hres.
      apply list_elem_of_lookup in Hr as [k Hk].
      destruct (Forall2_lookup_l _ _ _ _ _ Hres Hk) as (r' & _ & _ & Hr').
      apply list_elem_of_lookup in Hi as [j Hj].
      destruct (Forall2_lookup_l _ _ _ _ _ Hr' Hj) as (c & _ & Hc).
      apply lookup_lt_Some in Hc. lia.
    + rewrite remove_query_gaps_loop in Hres.
      apply for_each_append_Raise, Exists_exists in Hres as (r0 & _ & H0).
      apply clean_record_Raise in H0 as [-> _]. done.
Qed.

Lemma remove_query_gaps_in_range query_header query_seq rest :
  (∀ r i, r ∈ (query_header, query_seq) :: rest →
          i ∈ Readme.non_gap_positions query_seq → i < length r.2) →
  ∃ out, Readme.remove_query_gaps ((query_header, query_seq) :: rest) = Ok out.
Proof.
  intros H. destruct (Readme.remove_query_gaps _) as [out|e] eqn:Hres; [eauto|].
  apply remove_query_gaps_Raise in Hres as (_ & r & i & Hr & Hi & Hlen).
  specialize (H r i Hr Hi). lia.
Qed.

(** A strictly ascending list of indices grows at least as fast as its own
    positions, so a record shorter than the number of retained columns
    misses one of them. *)
Lemma ascending_lookup_ge (l : list nat) (b k i : nat) :
  StronglySorted lt l → Forall (le b) l → l !! k = Some i → b + k ≤ i.
Proof.
  intros Hs. revert b k i.
  induction Hs as [|j l _ IH Hj]; intros b k i Hb; [done|].
  apply Forall_cons in Hb as [Hbj _].
  destruct k as [|k]; simpl; intros Hk; [injection Hk as ->; lia|].
  assert (S j + k ≤ i); [|lia].
  apply IH; [|done]. eapply Forall_impl; [exact Hj|]. simpl. lia.
Qed.

Lemma short_record_misses_column (query_seq seq : str) :
  length seq < non_gap_count query_seq →
  ∃ i, i ∈ Readme.non_gap_positions query_seq ∧ length seq ≤ i.
Proof.
  rewrite <- length_non_gap_positions. intros Hlen.
  destruct (lookup_lt_is_Some_2 _ _ Hlen) as [i Hi]. exists i. split.
  - by eapply list_elem_of_lookup_2.
  - change (0 + length seq ≤ i).
    eapply ascending_lookup_ge; [apply non_gap_positions_sorted | | done].
    apply Forall_forall. lia.
Qed.

(** ** [convert_a3m_to_a2m] after the converter has run *)

Lemma convert_a3m_to_a2m_after REFORMAT_PL subprocess_run a3m_file a2m_file
    (fs fs' : gmap string str) content :
  subprocess_run [REFORMAT_PL; "a3m"; "a2m"; a3m_file; a2m_file]%string fs
    = (Ok tt, fs') →
  fs' !! a2m_file = Some content →
  Readme.convert_a3m_to_a2m REFORMAT_PL subprocess_run a3m_file a2m_file fs
  = match Readme.read_a2m_lines (Py.file_lines content) with
    | [] => (Ok tt, fs')
    | r :: rest =>
        match Readme.remove_query_gaps (r :: rest) with
        | Ok [] => (Raise IndexError, fs')
        | Ok (r' :: rest') =>
            (Ok tt, <[a2m_file := Readme.write_a2m_text (r' :: rest')]> fs')
        | Raise e => (Raise e, fs')
        end
    end.
Proof.
  intros Hrun Hfile.
  unfold Readme.convert_a3m_to_a2m, mbind, io_bind, Readme.read_a2m.
  rewrite Hrun, Hfile.
  destruct (Readme.read_a2m_lines _) as [|r rest]; [done|].
  unfold lift.
  destruct (Readme.remove_query_gaps (r :: rest)) as [[|r' rest']|e];
    reflexivity.
Qed.

(** * The filter: [remove_query_gaps] *)

(** C1. Whenever [remove_query_gaps] accepts a non-empty alignment, no
    record misses a retained column, and every record of the result has a
    sequence as long as the number of characters of the first (query)
    sequence that are neither ['.'] nor ['-']. *)
Theorem remove_query_gaps_length query_header query_seq rest out :
  Readme.remove_query_gaps ((query_header, query_seq) :: rest) = Ok out →
  (∀ r i, r ∈ (query_header, query_seq) :: rest →
          i ∈ Readme.non_gap_positions query_seq → i < length r.2)
  ∧ Forall (λ r', length r'.2 = non_gap_count query_seq) out.
Proof.
  intros Hout. split.
  - intros r i Hr Hi. destruct (decide (i < length r.2)) as [|Hge]; [done|].
    assert (Readme.remove_query_gaps ((query_header, query_seq) :: rest)
            = Raise IndexError) as Hraise
      by (apply remove_query_gaps_Raise; split; [done|]; exists r, i; auto with lia).
    congruence.
  - apply remove_query_gaps_Ok in Hout as H. apply Forall_forall. intros r' Hr'.
    apply list_elem_of_lookup in Hr' as [k Hk].
    destruct (Forall2_lookup_r _ _ _ _ _ H Hk) as (r & _ & _ & Hcols).
    apply Forall2_length in Hcols.
    by rewrite <- Hcols, length_non_gap_positions.
Qed.

Lemma remove_query_gaps_length_witness :
  Readme.remove_query_gaps [(py ">ref", py "AC-GT"); (py ">s1", py "AG-GA")]
    = Ok [(py ">ref", py "ACGT"); (py ">s1", py "AGGA")]
  ∧ Forall (λ r', length r'.2 = non_gap_count (py "AC-GT"))
           [(py ">ref", py "ACGT"); (py ">s1", py "AGGA")].
Proof.
  split; [reflexivity|].
  apply (remove_query_gaps_length (py ">ref") (py "AC-GT")
           [(py ">s1", py "AG-GA")]).
  reflexivity.
Defined.

(** C4. The retained columns are exactly the zero-based indices at which the
    query sequence has a character other than ['.'] and ['-'], in strictly
    ascending order; every output sequence is the input sequence read at
    these indices, in that order, hence the input with characters deleted
    and none moved. *)
Theorem retained_columns_ascending query_seq :
  StronglySorted lt (Readme.non_gap_positions query_seq)
  ∧ (∀ i, i ∈ Readme.non_gap_positions query_seq
          ↔ ∃ c, query_seq !! i = Some c ∧ c ≠ "."%char ∧ c ≠ "-"%char)
  ∧ (∀ query_header rest out,
       Readme.remove_query_gaps ((query_header, query_seq) :: rest) = Ok out →
       Forall2 (λ r r',
                  Forall2 (λ i c, r.2 !! i = Some c)
                          (Readme.non_gap_positions query_seq) r'.2
                  ∧ r'.2 `sublist_of` r.2)
               ((query_header, query_seq) :: rest) out).
Proof.
  split; [apply non_gap_positions_sorted|].
  split; [apply elem_of_non_gap_positions|].
  intros query_header rest out H%remove_query_gaps_Ok.
  eapply Forall2_impl; [exact H|]. intros r r' [_ Hcols]. split; [done|].
  eapply lookup_ascending_sublist; [apply non_gap_positions_sorted | done].
Qed.

Lemma retained_columns_ascending_witness :
  Readme.non_gap_positions (py "A.C-G") = [0; 2; 4]
  ∧ Forall2 (λ r r', Forall2 (λ i c, r.2 !! i = Some c)
                             (Readme.non_gap_positions (py "A.C-G")) r'.2
                     ∧ r'.2 `sublist_of` r.2)
            [(py ">ref", py "A.C-G"); (py ">s1", py "AXCXG")]
            [(py ">ref", py "ACG"); (py ">s1", py "ACG")].
Proof.
  split; [reflexivity|].
  apply (proj2 (proj2 (retained_columns_ascending (py "A.C-G")))
           (py ">ref") [(py ">s1", py "AXCXG")]).
  reflexivity.
Defined.

(** C6. When [remove_query_gaps] succeeds, its result has as many records
    as its argument, and the record at each index keeps the label of the
    input record at that index; only the sequences change. *)
Theorem remove_query_gaps_keeps_labels sequences out :
  Readme.remove_query_gaps sequences = Ok out →
  length out = length sequences
  ∧ Forall2 (λ r r', r'.1 = r.1) sequences out.
Proof.
  destruct sequences as [|[query_header query_seq] rest].
  - intros [= <-]. split; [done | constructor].
  - intros H%remove_query_gaps_Ok. split.
    + symmetry. by eapply Forall2_length.
    + eapply Forall2_impl; [exact H|]. by intros r r' [? _].
Qed.

Lemma remove_query_gaps_keeps_labels_witness :
  length [(py ">ref", py "ACGT"); (py ">s1", py "AGGA")] = 2
  ∧ Forall2 (λ r r' : record, r'.1 = r.1)
            [(py ">ref", py "AC-GT"); (py ">s1", py "AG-GA")]
            [(py ">ref", py "ACGT"); (py ">s1", py "AGGA")].
Proof.
  apply (remove_query_gaps_keeps_labels
           [(py ">ref", py "AC-GT"); (py ">s1", py "AG-GA")]).
  reflexivity.
Defined.

(** C2, as stated, fails: a record that is shorter than the query only by
    columns in which the query has a gap is projected without any error,
    although a column of the query (here column 1) lies outside its
    bounds. *)
Lemma shorter_record_accepted :
  let sequences := [(py ">ref", py "A-"); (py ">s1", py "C")] in
  (py ">s1", py "C") ∈ tail sequences
  ∧ length (py "C") < length (py "A-")
  ∧ (1 < length (py "A-") ∧ py "C" !! 1 = None)
  ∧ Readme.remove_query_gaps sequences
    = Ok [(py ">ref", py "A"); (py ">s1", py "C")].
Proof.
  split; [apply list_elem_of_here|].
  split; [vm_compute; lia|].
  split; [split; [vm_compute; lia | reflexivity] | reflexivity].
Qed.

(** C2, amended. If a column retained from the query lies outside the
    bounds of some record (which is then a record after the first, shorter
    than the query), [remove_query_gaps] raises [IndexError]; and when the
    file produced by the converter holds such an alignment,
    [convert_a3m_to_a2m] ends with that [IndexError] before [write_a2m] is
    called, leaving the file system as the converter left it. *)
Theorem remove_query_gaps_column_out_of_range query_header query_seq rest r i :
  r ∈ (query_header, query_seq) :: rest →
  i ∈ Readme.non_gap_positions query_seq →
  length r.2 ≤ i →
  (r ∈ rest ∧ length r.2 < length query_seq)
  ∧ Readme.remove_query_gaps ((query_header, query_seq) :: rest)
    = Raise IndexError
  ∧ ∀ REFORMAT_PL subprocess_run a3m_file a2m_file
      (fs fs' : gmap string str) content,
      subprocess_run [REFORMAT_PL; "a3m"; "a2m"; a3m_file; a2m_file]%string fs
        = (Ok tt, fs') →
      fs' !! a2m_file = Some content →
      Readme.read_a2m_lines (Py.file_lines content)
        = (query_header, query_seq) :: rest →
      Readme.convert_a3m_to_a2m REFORMAT_PL subprocess_run a3m_file a2m_file fs
        = (Raise IndexError, fs').
Proof.
  intros Hr Hi Hlen.
  assert (Readme.remove_query_gaps ((query_header, query_seq) :: rest)
          = Raise IndexError) as Hraise.
  { apply remove_query_gaps_Raise. eauto 10. }
  pose proof (non_gap_positions_lt _ _ Hi) as Hq.
  split; [|split; [done|]].
  - split; [|lia]. apply elem_of_cons in Hr as [->|Hr]; [simpl in *; lia | done].
  - intros REFORMAT_PL subprocess_run a3m_file a2m_file fs fs' content
      Hrun Hfile Hparse.
    rewrite (convert_a3m_to_a2m_after _ _ _ _ _ _ _ Hrun Hfile).
    rewrite Hparse. cbv beta iota. by rewrite Hraise.
Qed.

Lemma remove_query_gaps_column_out_of_range_witness :
  Readme.remove_query_gaps [(py ">ref", py "AC"); (py ">s1", py "A")]
    = Raise IndexError
  ∧ let produce : list string → io unit :=
      λ _ fs, (Ok tt, <["aln.a2m"%string := text_of [">ref"; "AC"; ">s1"; "A"]%string]> fs) in
    Readme.convert_a3m_to_a2m "reformat.pl" produce "aln.a3m" "aln.a2m" ∅
    = (Raise IndexError, {["aln.a2m"%string := text_of [">ref"; "AC"; ">s1"; "A"]%string]}).
Proof.
  assert ((py ">s1", py "A") ∈ [(py ">ref", py "AC"); (py ">s1", py "A")])
    as Hr by (apply list_elem_of_further, list_elem_of_here).
  assert (1 ∈ Readme.non_gap_positions (py "AC"))
    as Hi by (apply list_elem_of_further, list_elem_of_here).
  assert (length (py ">s1", py "A").2 ≤ 1) as Hlen by (vm_compute; lia).
  destruct (remove_query_gaps_column_out_of_range _ _ _ _ _ Hr Hi Hlen)
    as (_ & Hraise & Hconvert).
  split; [exact Hraise|].
  intros produce.
  apply (Hconvert _ produce _ _ _ _ (text_of [">ref"; "AC"; ">s1"; "A"]%string));
    reflexivity.
Defined.

(** C9, as stated, fails: a record longer than the query does not make
    [remove_query_gaps] succeed when another record is too short. *)
Lemma longer_record_beside_short_record :
  let sequences :=
    [(py ">ref", py "AC"); (py ">s1", py "ACG"); (py ">s2", py "A")] in
  (py ">s1", py "ACG") ∈ tail sequences
  ∧ length (py "AC") < length (py "ACG")
  ∧ Readme.remove_query_gaps sequences = Raise IndexError.
Proof.
  split; [apply list_elem_of_here|].
  split; [vm_compute; lia | reflexivity].
Qed.

(** C9, amended. When no record misses a retained column, a record after
    the first that is strictly longer than the query raises no error:
    [remove_query_gaps] succeeds, the output record at its index keeps its
    label and holds its characters at the retained columns only, so its
    length is the number of retained columns; no column at or beyond the
    length of the query is retained. *)
Theorem remove_query_gaps_longer_record query_header query_seq rest k header seq :
  (∀ r i, r ∈ (query_header, query_seq) :: rest →
          i ∈ Readme.non_gap_positions query_seq → i < length r.2) →
  rest !! k = Some (header, seq) →
  length query_seq < length seq →
  ∃ out cleaned,
    Readme.remove_query_gaps ((query_header, query_seq) :: rest) = Ok out
    ∧ out !! S k = Some (header, cleaned)
    ∧ Forall2 (λ i c, seq !! i = Some c)
              (Readme.non_gap_positions query_seq) cleaned
    ∧ length cleaned = non_gap_count query_seq
    ∧ length cleaned < length seq
    ∧ ∀ i, length query_seq ≤ i → i ∉ Readme.non_gap_positions query_seq.
Proof.
  intros Hrange Hk Hlonger.
  destruct (remove_query_gaps_in_range _ _ _ Hrange) as [out Hout].
  pose proof Hout as H%remove_query_gaps_Ok.
  destruct (Forall2_lookup_l _ _ _ (S k) _ H Hk) as ([h' cleaned] & Hk' & Hh & Hcols).
  simpl in Hh, Hcols. subst h'. exists out, cleaned.
  pose proof (Forall2_length _ _ _ Hcols) as Hlen.
  rewrite length_non_gap_positions in Hlen.
  assert (non_gap_count query_seq ≤ length query_seq)
    by apply List.filter_length_le.
  repeat split; [done..|lia|lia|].
  intros i Hi Hin%non_gap_positions_lt. lia.
Qed.

Lemma remove_query_gaps_longer_record_witness :
  ∃ out cleaned,
    Readme.remove_query_gaps [(py ">ref", py "A-C"); (py ">s1", py "AXCGT")]
      = Ok out
    ∧ out !! 1 = Some (py ">s1", cleaned)
    ∧ Forall2 (λ i c, py "AXCGT" !! i = Some c)
              (Readme.non_gap_positions (py "A-C")) cleaned
    ∧ length cleaned = non_gap_count (py "A-C")
    ∧ length cleaned < length (py "AXCGT")
    ∧ ∀ i, length (py "A-C") ≤ i → i ∉ Readme.non_gap_positions (py "A-C").
Proof.
  apply (remove_query_gaps_longer_record (py ">ref") (py "A-C")
           [(py ">s1", py "AXCGT")] 0 (py ">s1") (py "AXCGT")).
  - intros r i Hr Hi.
    assert (i < 3) by (apply non_gap_positions_lt in Hi; exact Hi).
    apply elem_of_cons in Hr as [->|Hr]; [exact H|].
    apply list_elem_of_singleton in Hr as ->. simpl.
    change (length (py "AXCGT")) with 5. lia.
  - reflexivity.
  - vm_compute. lia.
Defined.

Lemma lookup_all_columns (s : str) :
  Forall2 (λ i c, s !! i = Some c) (seq 0 (length s)) s.
Proof.
  apply Forall2_same_length_lookup. split; [by rewrite length_seq|].
  intros k i c Hi Hc. apply lookup_seq in Hi as [-> _]. done.
Qed.

(** C5, as stated, fails: with a query free of gaps, a record longer than
    the query is cut to the length of the query, so the text written differs
    from the text read by more than its line wrapping. *)
Lemma gap_free_query_longer_record_cut :
  let text := text_of [">ref"; "AC"; ">s1"; "ACGT"]%string in
  let sequences := [(py ">ref", py "AC"); (py ">s1", py "ACGT")] in
  let cleaned := [(py ">ref", py "AC"); (py ">s1", py "AC")] in
  Readme.read_a2m_lines (Py.file_lines text) = sequences
  ∧ non_gap_count (py "AC") = length (py "AC")
  ∧ Readme.remove_query_gaps sequences = Ok cleaned
  ∧ cleaned ≠ sequences
  ∧ Readme.write_a2m_text cleaned = text_of [">ref"; "AC"; ">s1"; "AC"]%string.
Proof.
  repeat split; try reflexivity. discriminate.
Qed.

(** C5, amended. When the query has no ['.'] and no ['-'] and every other
    record has a sequence of the length of the query, [remove_query_gaps]
    returns the records it was given, labels and sequences alike; so
    [convert_a3m_to_a2m] rewrites the converted file as the serialisation
    of the very records it read from it. *)
Theorem gap_free_query_unchanged query_header query_seq rest :
  non_gap_count query_seq = length query_seq →
  Forall (λ r, length r.2 = length query_seq) rest →
  Readme.remove_query_gaps ((query_header, query_seq) :: rest)
    = Ok ((query_header, query_seq) :: rest)
  ∧ ∀ REFORMAT_PL subprocess_run a3m_file a2m_file
      (fs fs' : gmap string str) content,
      subprocess_run [REFORMAT_PL; "a3m"; "a2m"; a3m_file; a2m_file]%string fs
        = (Ok tt, fs') →
      fs' !! a2m_file = Some content →
      Readme.read_a2m_lines (Py.file_lines content)
        = (query_header, query_seq) :: rest →
      Readme.convert_a3m_to_a2m REFORMAT_PL subprocess_run a3m_file a2m_file fs
        = (Ok tt,
           <[a2m_file :=
               Readme.write_a2m_text
                 (Readme.read_a2m_lines (Py.file_lines content))]> fs').
Proof.
  intros Hgaps Hrest.
  assert (Readme.remove_query_gaps ((query_header, query_seq) :: rest)
          = Ok ((query_header, query_seq) :: rest)) as Hsame.
  { apply remove_query_gaps_Ok. rewrite (non_gap_positions_no_gap _ Hgaps).
    apply Forall_Forall2_diag. constructor.
    - split; [done | apply lookup_all_columns].
    - eapply Forall_impl; [exact Hrest|]. intros r <-.
      split; [done | apply lookup_all_columns]. }
  split; [done|].
  intros REFORMAT_PL subprocess_run a3m_file a2m_file fs fs' content
    Hrun Hfile Hparse.
  rewrite (convert_a3m_to_a2m_after _ _ _ _ _ _ _ Hrun Hfile).
  rewrite Hparse. cbv beta iota. by rewrite Hsame.
Qed.

Lemma gap_free_query_unchanged_witness :
  Readme.remove_query_gaps [(py ">ref", py "ACGT"); (py ">s1", py "AG-a")]
  = Ok [(py ">ref", py "ACGT"); (py ">s1", py "AG-a")].
Proof.
  apply (gap_free_query_unchanged (py ">ref") (py "ACGT") [(py ">s1", py "AG-a")]).
  - reflexivity.
  - repeat constructor.
Defined.

(** * The parser: [read_a2m] *)

Lemma read_line_header st line :
  Py.startswith (Py.rstrip line [LF; CR]) (py ">") = true →
  Readme.read_line st line
  = Readme.Reader (Readme.save st) (Some (Py.rstrip line [LF; CR])) [].
Proof. unfold Readme.read_line. by intros ->. Qed.

Lemma read_line_other st line :
  Py.startswith (Py.rstrip line [LF; CR]) (py ">") = false →
  Readme.read_line st line
  = Readme.Reader (Readme.sequences st) (Readme.current_header st)
                  (Readme.current_seq st ++ [Py.rstrip line [LF; CR]]).
Proof. unfold Readme.read_line. by intros ->. Qed.

(** While no header has been seen, the lines collected so far have no
    influence on the records read. *)
Lemma read_a2m_before_header lines collected :
  Readme.save (fold_left Readme.read_line lines (Readme.Reader [] None collected))
  = Readme.save (fold_left Readme.read_line lines (Readme.Reader [] None [])).
Proof.
  revert collected. induction lines as [|line lines IH]; intros collected; [done|].
  simpl. destruct (Py.startswith (Py.rstrip line [LF; CR]) (py ">")) eqn:Hline.
  - by rewrite !read_line_header.
  - rewrite !read_line_other by done. simpl. rewrite IH. symmetry. apply IH.
Qed.

Lemma read_a2m_lines_skip before lines :
  Forall (λ line, Py.startswith (Py.rstrip line [LF; CR]) (py ">") = false)
         before →
  Readme.read_a2m_lines (before ++ lines) = Readme.read_a2m_lines lines.
Proof.
  unfold Readme.read_a2m_lines. rewrite fold_left_app. intros H.
  enough (∀ collected,
    Readme.save (fold_left Readme.read_line lines
      (fold_left Readme.read_line before (Readme.Reader [] None collected)))
    = Readme.save (fold_left Readme.read_line lines (Readme.Reader [] None [])))
    as Hgen by apply Hgen.
  induction H as [|line before Hline _ IH]; intros collected; simpl.
  - apply read_a2m_before_header.
  - rewrite read_line_other by done. simpl. apply IH.
Qed.

(** C3, as stated, fails: a file with a non-empty line before its first
    ['>'] line is read without any error, the line being dropped. *)
Lemma leading_content_accepted :
  let content := text_of ["junk"; ">ref"; "AC"]%string in
  let fs : gmap string str := {["aln.a2m"%string := content]} in
  Py.file_lines content
    = [py "junk" ++ [LF]; py ">ref" ++ [LF]; py "AC" ++ [LF]]
  ∧ Readme.read_a2m "aln.a2m" fs = (Ok [(py ">ref", py "AC")], fs)
  ∧ ¬ ∃ e fs', Readme.read_a2m "aln.a2m" fs = (Raise e, fs').
Proof.
  split; [reflexivity|]. split; [reflexivity|].
  intros (e & fs' & H). vm_compute in H. discriminate.
Qed.

(** C3, amended. [read_a2m] raises no error on the content of a file that
    exists: the lines before the first line starting with ['>'] are
    ignored, and the records read are those of the remaining lines. *)
Theorem read_a2m_ignores_leading_lines filename (fs : gmap string str)
    content before lines :
  fs !! filename = Some content →
  Py.file_lines content = before ++ lines →
  Forall (λ line, Py.startswith (Py.rstrip line [LF; CR]) (py ">") = false)
         before →
  Readme.read_a2m filename fs = (Ok (Readme.read_a2m_lines lines), fs).
Proof.
  intros Hfile Hlines Hbefore. unfold Readme.read_a2m.
  by rewrite Hfile, Hlines, read_a2m_lines_skip.
Qed.

Lemma read_a2m_ignores_leading_lines_witness :
  Readme.read_a2m "aln.a2m"
    {["aln.a2m"%string := text_of ["junk"; ""; ">ref"; "AC"]%string]}
  = (Ok (Readme.read_a2m_lines [py ">ref" ++ [LF]; py "AC" ++ [LF]]),
     {["aln.a2m"%string := text_of ["junk"; ""; ">ref"; "AC"]%string]}).
Proof.
  apply (read_a2m_ignores_leading_lines "aln.a2m" _
           (text_of ["junk"; ""; ">ref"; "AC"]%string)
           [py "junk" ++ [LF]; [LF]]).
  - reflexivity.
  - reflexivity.
  - repeat constructor.
Defined.

(** C8. On empty input, [read_a2m] finds no line and returns no record;
    [remove_query_gaps] returns the empty list it is given; and
    [write_a2m] writes the empty text. *)
Theorem empty_input filename (fs : gmap string str) :
  Py.file_lines [] = []
  ∧ Readme.read_a2m filename (<[filename := []]> fs)
    = (Ok [], <[filename := []]> fs)
  ∧ Readme.remove_query_gaps [] = Ok []
  ∧ Readme.write_a2m_text [] = []
  ∧ Readme.write_a2m [] filename fs = (Ok tt, <[filename := []]> fs).
Proof.
  repeat split. unfold Readme.read_a2m. by rewrite lookup_insert_eq.
Qed.

(** * The serializer: [write_a2m] *)

Lemma fold_left_write {A : Type} (g : A → str) (l : list A) (buf : str) :
  fold_left (λ buf i, buf ++ g i ++ [LF]) l buf
  = buf ++ mjoin ((λ i, g i ++ [LF]) <$> l).
Proof.
  revert buf. induction l as [|i l IH]; intros buf; csimpl.
  - by rewrite app_nil_r.
  - rewrite IH. by rewrite <- !app_assoc.
Qed.

Lemma write_record_app buf (r : record) :
  Readme.write_record buf r
  = buf ++ r.1 ++ [LF] ++ mjoin ((λ line, line ++ [LF]) <$> residue_lines r.2).
Proof.
  destruct r as [header seq]. unfold Readme.write_record, residue_lines.
  rewrite (fold_left_write (λ i, Py.slice seq i (i + 80))).
  rewrite <- list_fmap_compose. by rewrite <- !app_assoc.
Qed.

Lemma write_a2m_text_app sequences buf :
  fold_left Readme.write_record sequences buf
  = buf ++ mjoin ((λ r : record, r.1 ++ [LF] ++
                     mjoin ((λ line, line ++ [LF]) <$> residue_lines r.2))
                  <$> sequences).
Proof.
  revert buf. induction sequences as [|r sequences IH]; intros buf; csimpl.
  - by rewrite app_nil_r.
  - rewrite IH, write_record_app. by rewrite <- !app_assoc.
Qed.

Lemma range_step_chunks (n : nat) (s : str) :
  (λ i, Py.slice s i (i + 80)) <$> ((λ k, k * 80) <$> seq 0 n)
  = (λ k, take 80 (drop (k * 80) s)) <$> seq 0 n.
Proof.
  rewrite <- list_fmap_compose. apply list_fmap_ext. intros _ k _. simpl.
  unfold Py.slice. by replace (k * 80 + 80 - k * 80) with 80 by lia.
Qed.

Lemma chunks_shift (n : nat) (s : str) :
  (λ k, take 80 (drop (k * 80) s)) <$> seq 1 n
  = (λ k, take 80 (drop (k * 80) (drop 80 s))) <$> seq 0 n.
Proof.
  rewrite <- fmap_S_seq, <- list_fmap_compose. apply list_fmap_ext.
  intros _ k _. simpl. rewrite drop_drop. done.
Qed.

Lemma chunks_join (n : nat) (s : str) :
  length s ≤ n * 80 →
  mjoin ((λ k, take 80 (drop (k * 80) s)) <$> seq 0 n) = s.
Proof.
  revert s. induction n as [|n IH]; intros s Hlen.
  - destruct s; [done | simpl in Hlen; lia].
  - cbn [seq]. rewrite fmap_cons, chunks_shift. csimpl.
    rewrite IH by (rewrite length_drop; lia). rewrite drop_0.
    apply take_drop.
Qed.

Lemma length_range_step_bounds (len : nat) :
  len ≤ ((len + 80 - 1) `div` 80) * 80
  ∧ (0 < len → ((len + 80 - 1) `div` 80 - 1) * 80 < len).
Proof.
  pose proof (Nat.div_mod_eq (len + 80 - 1) 80).
  pose proof (Nat.mod_upper_bound (len + 80 - 1) 80). lia.
Qed.

Lemma residue_lines_join (s : str) : mjoin (residue_lines s) = s.
Proof.
  unfold residue_lines, Py.range_step. rewrite range_step_chunks.
  apply chunks_join, length_range_step_bounds.
Qed.

Lemma residue_lines_lookup (s : str) (k : nat) (line : str) :
  residue_lines s !! k = Some line →
  0 < length line ≤ 80
  ∧ (S k < length (residue_lines s) → length line = 80).
Proof.
  unfold residue_lines, Py.range_step. rewrite range_step_chunks.
  destruct (length_range_step_bounds (length s)) as [_ Hlast].
  assert (length s = 0 → (length s + 80 - 1) `div` 80 = 0) as Hnil
    by (by intros ->).
  revert Hlast Hnil. generalize ((length s + 80 - 1) `div` 80). intros n Hlast Hnil.
  rewrite length_fmap, length_seq, list_lookup_fmap.
  destruct (seq 0 n !! k) as [j|] eqn:Hj; [|done].
  apply lookup_seq in Hj as [-> Hk]. cbn [fmap option_fmap option_map].
  intros [= <-]. rewrite length_take, length_drop. lia.
Qed.

(** C7. For each record in order, [write_a2m] writes the label followed by
    a line feed, then the sequence cut into consecutive lines, each
    followed by a line feed: every line holds exactly 80 characters except
    the last one, which holds between 1 and 80, and the lines of a record
    joined give back its sequence. *)
Theorem write_a2m_wraps_at_80 sequences filename (fs : gmap string str) :
  ∃ wrapped : list (list str),
    Forall2 (λ (r : record) lines,
               mjoin lines = r.2
               ∧ ∀ k line, lines !! k = Some line →
                   0 < length line ≤ 80
                   ∧ (S k < length lines → length line = 80))
            sequences wrapped
    ∧ Readme.write_a2m_text sequences
      = mjoin (zip_with (λ (r : record) lines,
                           r.1 ++ [LF] ++
                           mjoin ((λ line, line ++ [LF]) <$> lines))
                        sequences wrapped)
    ∧ Readme.write_a2m sequences filename fs
      = (Ok tt, <[filename := Readme.write_a2m_text sequences]> fs).
Proof.
  exists ((λ r : record, residue_lines r.2) <$> sequences).
  split; [|split; [|done]].
  - apply Forall2_fmap_r, Forall_Forall2_diag, Forall_forall.
    intros r _. split; [apply residue_lines_join|].
    intros k line. apply residue_lines_lookup.
  - unfold Readme.write_a2m_text. rewrite write_a2m_text_app. simpl. f_equal.
    induction sequences as [|r sequences IH]; csimpl; [done|]. by rewrite IH.
Qed.

(** * The standalone script and the tool module *)

Lemma save_reader_of st : Script.save st = Readme.save (reader_of st).
Proof. by destruct st as [sequences [header|] collected]. Qed.

Lemma read_line_reader_of st line :
  reader_of (Script.read_line st line) = Readme.read_line (reader_of st) line.
Proof.
  unfold Script.read_line, Readme.read_line.
  destruct (Py.startswith _ _); [|done].
  unfold reader_of. simpl. by rewrite save_reader_of.
Qed.

Lemma fold_read_line_reader_of lines st :
  reader_of (fold_left Script.read_line lines st)
  = fold_left Readme.read_line lines (reader_of st).
Proof.
  revert st. induction lines as [|line lines IH]; intros st; simpl; [done|].
  by rewrite IH, read_line_reader_of.
Qed.

Lemma read_a2m_lines_same lines :
  Script.read_a2m_lines lines = Readme.read_a2m_lines lines.
Proof.
  unfold Script.read_a2m_lines, Readme.read_a2m_lines.
  by rewrite save_reader_of, fold_read_line_reader_of.
Qed.

(** C10. The functions [read_a2m], [remove_query_gaps] and [write_a2m] of
    the standalone script give, on every input, the results of the
    functions of the same names of the tool module. *)
Theorem script_agrees_with_tool :
  (∀ filename fs, Script.read_a2m filename fs = Readme.read_a2m filename fs)
  ∧ (∀ sequences,
       Script.remove_query_gaps sequences = Readme.remove_query_gaps sequences)
  ∧ (∀ sequences filename fs,
       Script.write_a2m sequences filename fs
       = Readme.write_a2m sequences filename fs).
Proof.
  split; [|split].
  - intros filename fs. unfold Script.read_a2m, Readme.read_a2m.
    destruct (fs !! filename); [|done]. by rewrite read_a2m_lines_same.
  - intros sequences. reflexivity.
  - intros sequences filename fs. reflexivity.
Qed.

(** * The pipeline on concrete alignments *)

(** Reading, cleaning and serialising one text, as the cleaning stage of
    [convert_a3m_to_a2m] does for a file with at least one record. *)
Example clean_one_gap_column :
  (cleaned ← Readme.remove_query_gaps
     (Readme.read_a2m_lines
        (Py.file_lines (text_of [">ref"; "AC-GT"; ">s1"; "AG-GA"]%string)));
   Ok (Readme.write_a2m_text cleaned))
  = Ok (text_of [">ref"; "ACGT"; ">s1"; "AGGA"]%string).
Proof. reflexivity. Qed.

Example clean_insert_gaps :
  Readme.non_gap_positions (py "A.C.G") = [0; 2; 4]
  ∧ Readme.remove_query_gaps [(py ">ref", py "A.C.G"); (py ">s1", py "AXCXG")]
    = Ok [(py ">ref", py "ACG"); (py ">s1", py "ACG")].
Proof. split; reflexivity. Qed.

Example clean_query_of_gaps_only :
  Readme.remove_query_gaps [(py ">ref", py "---")] = Ok [(py ">ref", [])]
  ∧ Readme.write_a2m_text [(py ">ref", [])] = text_of [">ref"]%string.
Proof. split; reflexivity. Qed.

(** Carriage returns end lines too, and a sequence may span several lines. *)
Example read_mixed_line_ends :
  Readme.read_a2m_lines
    (Py.file_lines (py ">ref" ++ [CR; LF] ++ py "AC" ++ [CR] ++ py "GT"
                    ++ [LF] ++ py ">s1" ++ [LF] ++ py "AGGA"))
  = [(py ">ref", py "ACGT"); (py ">s1", py "AGGA")].
Proof. reflexivity. Qed.

(** A sequence of 161 characters is written on lines of 80, 80 and 1. *)
Example write_three_lines :
  Readme.write_a2m_text [(py ">ref", replicate 161 "A"%char)]
  = py ">ref" ++ [LF] ++ replicate 80 "A"%char ++ [LF]
    ++ replicate 80 "A"%char ++ [LF] ++ [ "A"%char; LF ].
Proof. vm_compute. reflexivity. Qed.

(** * Further properties of the parser *)

Lemma read_line_is_header st line :
  is_header line = true →
  Readme.read_line st line
  = Readme.Reader (Readme.save st) (Some (Py.rstrip line [LF; CR])) [].
Proof. apply read_line_header. Qed.

Lemma read_line_not_header st line :
  is_header line = false →
  Readme.read_line st line
  = Readme.Reader (Readme.sequences st) (Readme.current_header st)
                  (Readme.current_seq st ++ [Py.rstrip line [LF; CR]]).
Proof. apply read_line_other. Qed.

(** Records already saved stay in front of whatever is read next. *)
Lemma save_fold_prefix lines saved sequences header collected :
  Readme.save (fold_left Readme.read_line lines
                 (Readme.Reader (saved ++ sequences) header collected))
  = saved ++ Readme.save (fold_left Readme.read_line lines
                            (Readme.Reader sequences header collected)).
Proof.
  revert sequences header collected.
  induction lines as [|line lines IH]; intros sequences header collected.
  - simpl. unfold Readme.save. simpl.
    destruct header; [by rewrite <- app_assoc | done].
  - simpl. destruct (is_header line) eqn:Hline.
    + rewrite !read_line_is_header by done.
      replace (Readme.save (Readme.Reader (saved ++ sequences) header collected))
        with (saved ++ Readme.save (Readme.Reader sequences header collected)).
      * apply IH.
      * unfold Readme.save. simpl.
        destruct header; [by rewrite <- app_assoc | done].
    + rewrite !read_line_not_header by done. simpl. apply IH.
Qed.

(** Lines that open no record are collected, stripped, in order. *)
Lemma fold_body body sequences header collected :
  Forall (λ line, is_header line = false) body →
  fold_left Readme.read_line body (Readme.Reader sequences header collected)
  = Readme.Reader sequences header
      (collected ++ ((λ line, Py.rstrip line [LF; CR]) <$> body)).
Proof.
  intros H. revert collected.
  induction H as [|line body Hline _ IH]; intros collected; csimpl.
  - by rewrite app_nil_r.
  - rewrite read_line_not_header by done. simpl. rewrite IH.
    by rewrite <- app_assoc.
Qed.

Lemma read_a2m_lines_at_header lines line rest :
  is_header line = true →
  Readme.read_a2m_lines (lines ++ line :: rest)
  = Readme.read_a2m_lines lines ++ Readme.read_a2m_lines (line :: rest).
Proof.
  intros Hline. unfold Readme.read_a2m_lines.
  rewrite fold_left_app. simpl. rewrite !read_line_is_header by done.
  change (Readme.save (Readme.Reader [] None [])) with (@nil record).
  rewrite <- (app_nil_r (Readme.save (fold_left _ lines _))) at 1.
  apply save_fold_prefix.
Qed.

Lemma read_a2m_lines_one_record line body :
  is_header line = true →
  Forall (λ line, is_header line = false) body →
  Readme.read_a2m_lines (line :: body)
  = [(Py.rstrip line [LF; CR],
      Py.join ((λ line, Py.rstrip line [LF; CR]) <$> body))].
Proof.
  intros Hline Hbody. unfold Readme.read_a2m_lines. simpl.
  rewrite read_line_is_header by done.
  by rewrite fold_body.
Qed.

(** The labels read are the stripped header lines, in the order of the
    file. *)
Lemma labels_fold lines st :
  (Readme.save (fold_left Readme.read_line lines st)).*1
  = (Readme.save st).*1
    ++ ((λ line, Py.rstrip line [LF; CR]) <$> List.filter is_header lines).
Proof.
  revert st. induction lines as [|line lines IH]; intros st; csimpl.
  - by rewrite app_nil_r.
  - rewrite IH. destruct (is_header line) eqn:Hline.
    + rewrite read_line_is_header by done. csimpl.
      unfold Readme.save at 1. simpl. rewrite fmap_app. csimpl.
      by rewrite <- app_assoc.
    + rewrite read_line_not_header by done. f_equal.
      unfold Readme.save. simpl. destruct (Readme.current_header st); [|done].
      by rewrite !fmap_app.
Qed.

(** ** Line ends *)

Lemma rstrip_none (s chars : str) :
  Forall (λ c, c ∉ chars) s → Py.rstrip s chars = s.
Proof.
  induction 1 as [|c s Hc _ IH]; simpl; [done|]. rewrite IH.
  destruct s; [|done]. unfold Py.in_. by rewrite bool_decide_eq_false_2.
Qed.

Lemma rstrip_snoc (s chars : str) (c : ascii) :
  c ∈ chars → Py.rstrip (s ++ [c]) chars = Py.rstrip s chars.
Proof.
  intros Hc. induction s as [|a s IH]; simpl.
  - unfold Py.in_. by rewrite bool_decide_eq_true_2.
  - by rewrite IH.
Qed.

Lemma one_line_not_stripped (s : str) :
  one_line s → Forall (λ c, c ∉ [LF; CR]) s.
Proof.
  intros [HLF HCR]. apply Forall_forall. intros c Hc Hin.
  apply elem_of_cons in Hin as [->|Hin]; [done|].
  apply list_elem_of_singleton in Hin as ->. done.
Qed.

Lemma rstrip_one_line (s : str) : one_line s → Py.rstrip s [LF; CR] = s.
Proof. intros H. by apply rstrip_none, one_line_not_stripped. Qed.

Lemma rstrip_line (s : str) :
  one_line s → Py.rstrip (s ++ [LF]) [LF; CR] = s.
Proof.
  intros H. rewrite rstrip_snoc by apply list_elem_of_here.
  by apply rstrip_one_line.
Qed.

(** After the translation of line ends no carriage return is left; a text
    without carriage return is not changed. *)
Lemma universal_newlines_no_CR (s : str) :
  (CR ∉ Py.universal_newlines s) ∧ ∀ c, CR ∉ Py.universal_newlines (c :: s).
Proof.
  induction s as [|a s [IH1 IH2]].
  - split; [apply not_elem_of_nil|]. intros c. simpl.
    case_bool_decide; [|subst]; rewrite list_elem_of_singleton; congruence.
  - split; [apply IH2|]. intros c.
    change (Py.universal_newlines (c :: a :: s)) with
      (if bool_decide (c = CR) then
         if bool_decide (a = LF) then LF :: Py.universal_newlines s
         else LF :: Py.universal_newlines (a :: s)
       else c :: Py.universal_newlines (a :: s)).
    specialize (IH2 a).
    repeat case_bool_decide; rewrite not_elem_of_cons; split; congruence.
Qed.

Lemma universal_newlines_id (s : str) :
  CR ∉ s → Py.universal_newlines s = s.
Proof.
  induction s as [|c s IH]; [done|]. intros [Hc Hs]%not_elem_of_cons.
  simpl. rewrite bool_decide_eq_false_2 by done. by rewrite IH.
Qed.

(** Every line yielded is a text without line feed, followed by a line feed
    or, for a last unfinished line, by nothing; its characters are
    characters of the text. *)
Lemma iter_lines_shape (s : str) :
  Forall (λ line, ∃ body, (line = body ++ [LF] ∨ line = body)
                          ∧ (LF ∉ body) ∧ body ⊆ s)
         (Py.iter_lines s).
Proof.
  induction s as [|c s IH]; simpl; [constructor|].
  case_bool_decide as Hc.
  - constructor.
    + exists []. split; [by left|]. split; [apply not_elem_of_nil|].
      apply list_subseteq_nil.
    + eapply Forall_impl; [exact IH|]. simpl.
      intros line (body & ? & ? & ?). exists body. repeat split; try done.
      by apply list_subseteq_cons.
  - destruct (Py.iter_lines s) as [|l ls].
    + constructor; [|constructor]. exists [c]. split; [by right|].
      split; [by rewrite list_elem_of_singleton|].
      apply list_subseteq_skip, list_subseteq_nil.
    + apply Forall_cons in IH as [(body & Hl & HLF & Hsub) IH]. constructor.
      * exists (c :: body). split; [destruct Hl as [->| ->]; auto|].
        split; [rewrite not_elem_of_cons; auto|].
        by apply list_subseteq_skip.
      * eapply Forall_impl; [exact IH|]. simpl.
        intros line (body' & ? & ? & ?). exists body'. repeat split; try done.
        by apply list_subseteq_cons.
Qed.

Lemma file_lines_stripped (content : str) :
  Forall (λ line, one_line (Py.rstrip line [LF; CR])) (Py.file_lines content).
Proof.
  unfold Py.file_lines.
  eapply Forall_impl; [apply iter_lines_shape|]. simpl.
  intros line (body & Hline & HLF & Hsub).
  assert (one_line body) as Hbody.
  { split; [done|]. intros HCR%Hsub.
    by apply (proj1 (universal_newlines_no_CR content)). }
  destruct Hline as [->| ->];
    [by rewrite rstrip_line | by rewrite rstrip_one_line].
Qed.

(** The lines of a text made of finished lines are these lines. *)
Lemma iter_lines_line (l t : str) :
  LF ∉ l → Py.iter_lines (l ++ LF :: t) = (l ++ [LF]) :: Py.iter_lines t.
Proof.
  induction l as [|c l IH]; intros Hl; simpl.
  - reflexivity.
  - apply not_elem_of_cons in Hl as [Hc Hl].
    rewrite bool_decide_eq_false_2 by done. by rewrite IH.
Qed.

Lemma iter_lines_join (ls : list str) :
  Forall (λ l, LF ∉ l) ls →
  Py.iter_lines (mjoin ((λ l, l ++ [LF]) <$> ls)) = (λ l, l ++ [LF]) <$> ls.
Proof.
  induction 1 as [|l ls Hl _ IH]; csimpl; [done|].
  rewrite <- app_assoc. simpl. by rewrite iter_lines_line, IH.
Qed.

(** ** The records read from a file are well formed *)

Lemma join_mjoin (parts : list str) : Py.join parts = mjoin parts.
Proof.
  unfold Py.join. induction parts as [|part parts IH]; csimpl; [done|].
  by rewrite IH.
Qed.

Lemma one_line_join (parts : list str) :
  Forall one_line parts → one_line (Py.join parts).
Proof.
  intros H. rewrite join_mjoin. unfold one_line.
  split; intros (part & Hc & Hpart)%list_elem_of_join;
    rewrite Forall_forall in H; apply H in Hpart as [? ?]; done.
Qed.

Lemma reader_invariant_save st :
  reader_invariant st → Forall well_formed (Readme.save st).
Proof.
  intros (Hseqs & Hheader & Hcollected). unfold Readme.save.
  destruct (Readme.current_header st) as [header|]; [|done].
  apply Forall_app. split; [done|]. constructor; [|constructor].
  destruct (Hheader header eq_refl) as [Hstart Hline].
  split; [done|]. split; [done|]. by apply one_line_join.
Qed.

Lemma reader_invariant_read_line st line :
  reader_invariant st → one_line (Py.rstrip line [LF; CR]) →
  reader_invariant (Readme.read_line st line).
Proof.
  intros Hst Hline. destruct (is_header line) eqn:Hhead.
  - rewrite read_line_is_header by done. split; [|split]; simpl.
    + by apply reader_invariant_save.
    + by intros header [= <-].
    + constructor.
  - rewrite read_line_not_header by done.
    destruct Hst as (Hseqs & Hheader & Hcollected). split; [|split]; simpl.
    + done.
    + done.
    + apply Forall_app. split; [done|]. by constructor.
Qed.

Lemma reader_invariant_fold lines st :
  reader_invariant st →
  Forall (λ line, one_line (Py.rstrip line [LF; CR])) lines →
  reader_invariant (fold_left Readme.read_line lines st).
Proof.
  intros Hst Hlines. revert st Hst.
  induction Hlines as [|line lines Hline _ IH]; intros st Hst; simpl; [done|].
  by apply IH, reader_invariant_read_line.
Qed.

(** ** Writing, then reading *)

Lemma write_a2m_text_lines sequences :
  Readme.write_a2m_text sequences
  = mjoin ((λ l, l ++ [LF]) <$> (sequences ≫= record_lines)).
Proof.
  unfold Readme.write_a2m_text. rewrite write_a2m_text_app. simpl.
  induction sequences as [|r sequences IH]; csimpl; [done|].
  rewrite IH, fmap_app, join_app. by rewrite <- !app_assoc.
Qed.

Lemma residue_lines_head (s : str) (k : nat) (line : str) :
  residue_lines s !! k = Some line → line !! 0 = s !! (k * 80).
Proof.
  unfold residue_lines, Py.range_step. rewrite range_step_chunks.
  rewrite list_lookup_fmap.
  destruct (seq 0 _ !! k) as [j|] eqn:Hj; [|done].
  apply lookup_seq in Hj as [-> _]. cbn [fmap option_fmap option_map].
  intros [= <-]. rewrite lookup_take_lt by lia. rewrite lookup_drop.
  by rewrite Nat.add_0_r.
Qed.

Lemma residue_lines_subseteq (s line : str) :
  line ∈ residue_lines s → line ⊆ s.
Proof.
  unfold residue_lines, Py.range_step. rewrite range_step_chunks.
  intros (k & -> & _)%list_elem_of_fmap.
  intros c Hc. eapply sublist_subseteq; [|exact Hc].
  etrans; [apply sublist_take | apply sublist_drop].
Qed.

Lemma residue_lines_one_line (s : str) :
  one_line s → Forall one_line (residue_lines s).
Proof.
  intros [HLF HCR]. apply Forall_forall. intros line Hline%residue_lines_subseteq.
  split; intros ?%Hline; done.
Qed.

Lemma startswith_gt (s : str) :
  Py.startswith s (py ">") = bool_decide (s !! 0 = Some (">"%char)).
Proof.
  change (py ">") with [">"%char]. destruct s as [|c s].
  - reflexivity.
  - cbn [Py.startswith lookup list_lookup].
    replace (Py.startswith s []) with true by by destruct s.
    rewrite andb_true_r. apply bool_decide_ext. naive_solver.
Qed.

Lemma residue_lines_not_header (s : str) :
  one_line s → wraps_cleanly s →
  Forall (λ line, is_header line = false) ((λ l, l ++ [LF]) <$> residue_lines s).
Proof.
  intros Hs Hwrap. rewrite Forall_fmap. apply Forall_lookup.
  intros k line Hk. simpl. unfold is_header.
  rewrite rstrip_line.
  - rewrite startswith_gt, (residue_lines_head _ _ _ Hk).
    apply bool_decide_eq_false_2, Hwrap.
  - pose proof (residue_lines_one_line _ Hs) as H.
    rewrite Forall_forall in H. eapply H, list_elem_of_lookup_2, Hk.
Qed.

Lemma residue_lines_stripped (s : str) :
  one_line s →
  (λ line, Py.rstrip line [LF; CR]) <$> ((λ l, l ++ [LF]) <$> residue_lines s)
  = residue_lines s.
Proof.
  intros Hs. rewrite <- list_fmap_compose.
  rewrite <- (list_fmap_id (residue_lines s)) at 2.
  apply Forall_fmap_ext, Forall_forall. intros line Hline. simpl.
  apply rstrip_line. pose proof (residue_lines_one_line _ Hs) as H.
  rewrite Forall_forall in H. by apply H.
Qed.

Lemma header_line_is_header (r : record) :
  well_formed r →
  is_header (r.1 ++ [LF]) = true ∧ Py.rstrip (r.1 ++ [LF]) [LF; CR] = r.1.
Proof.
  intros (Hstart & Hlabel & _). unfold is_header. by rewrite rstrip_line.
Qed.

Lemma read_a2m_lines_app lines rest :
  rest = [] ∨ (∃ line rest', rest = line :: rest' ∧ is_header line = true) →
  Readme.read_a2m_lines (lines ++ rest)
  = Readme.read_a2m_lines lines ++ Readme.read_a2m_lines rest.
Proof.
  intros [->|(line & rest' & -> & Hline)].
  - by rewrite !app_nil_r.
  - by apply read_a2m_lines_at_header.
Qed.

Lemma written_lines_start sequences :
  Forall well_formed sequences →
  let rest := (λ l, l ++ [LF]) <$> (sequences ≫= record_lines) in
  rest = [] ∨ (∃ line rest', rest = line :: rest' ∧ is_header line = true).
Proof.
  intros Hwf. destruct Hwf as [|r sequences' Hr _]; [by left|]. right. csimpl.
  eexists _, _. split; [done|]. by apply header_line_is_header.
Qed.

Lemma read_a2m_lines_written sequences :
  Forall well_formed sequences →
  Forall (λ r : record, wraps_cleanly r.2) sequences →
  Readme.read_a2m_lines ((λ l, l ++ [LF]) <$> (sequences ≫= record_lines))
  = sequences.
Proof.
  intros Hwf. induction Hwf as [|r sequences Hr Hwf IH]; [done|].
  intros [Hwrap Hwraps]%Forall_cons. specialize (IH Hwraps).
  destruct (header_line_is_header r Hr) as [Hhead Hstrip].
  pose proof Hr as (_ & _ & Hseq).
  assert (Readme.read_a2m_lines
            ((λ l, l ++ [LF]) <$> record_lines r)
          = [r]) as Hone.
  { unfold record_lines. csimpl. rewrite read_a2m_lines_one_record;
      [|done|by apply residue_lines_not_header].
    rewrite Hstrip, residue_lines_stripped by done.
    rewrite join_mjoin, residue_lines_join. by destruct r. }
  rewrite bind_cons, fmap_app.
  rewrite read_a2m_lines_app by by apply written_lines_start.
  by rewrite Hone, IH.
Qed.

Lemma record_lines_one_line sequences :
  Forall well_formed sequences →
  Forall one_line (sequences ≫= record_lines).
Proof.
  induction 1 as [|r sequences (_ & Hlabel & Hseq) _ IH]; csimpl; [done|].
  constructor; [done|]. apply Forall_app. split; [|done].
  by apply residue_lines_one_line.
Qed.

Lemma text_of_lines_no_CR (ls : list str) :
  Forall one_line ls → CR ∉ mjoin ((λ l, l ++ [LF]) <$> ls).
Proof.
  induction 1 as [|l ls [_ Hl] _ IH]; csimpl; [apply not_elem_of_nil|].
  rewrite !not_elem_of_app, list_elem_of_singleton. done.
Qed.

Lemma file_lines_written sequences :
  Forall well_formed sequences →
  Py.file_lines (Readme.write_a2m_text sequences)
  = (λ l, l ++ [LF]) <$> (sequences ≫= record_lines).
Proof.
  intros Hwf%record_lines_one_line. unfold Py.file_lines.
  rewrite write_a2m_text_lines.
  rewrite universal_newlines_id by by apply text_of_lines_no_CR.
  apply iter_lines_join. eapply Forall_impl; [exact Hwf|]. by intros l [? _].
Qed.

(** * Further properties of the filter *)

Lemma non_gap_count_without_gaps (s : str) :
  non_gap_count s = length (without_gaps s).
Proof. reflexivity. Qed.

Lemma without_gaps_cons (c : ascii) (s : str) :
  without_gaps (c :: s)
  = if Py.not_in c (py ".-") then c :: without_gaps s else without_gaps s.
Proof.
  unfold without_gaps. simpl.
  destruct (Py.not_in c (py ".-")) eqn:Hc.
  - apply not_in_gaps in Hc. by rewrite bool_decide_eq_false_2 by tauto.
  - rewrite bool_decide_eq_true_2; [done|].
    destruct (decide (c = "."%char)), (decide (c = "-"%char)); auto.
    exfalso. assert (Py.not_in c (py ".-") = true) by by apply not_in_gaps.
    congruence.
Qed.

Lemma without_gaps_no_gap (s : str) :
  Forall (λ c, c ≠ "."%char ∧ c ≠ "-"%char) (without_gaps s).
Proof.
  induction s as [|c s IH]; [constructor|]. rewrite without_gaps_cons.
  destruct (Py.not_in c (py ".-")) eqn:Hc; [|done].
  constructor; [by apply not_in_gaps | done].
Qed.

Lemma without_gaps_id (s : str) :
  Forall (λ c, c ≠ "."%char ∧ c ≠ "-"%char) s → without_gaps s = s.
Proof.
  induction 1 as [|c s Hc _ IH]; [done|]. rewrite without_gaps_cons.
  apply not_in_gaps in Hc as ->. by rewrite IH.
Qed.

(** Reading the query at its retained columns removes its gaps. *)
Lemma query_at_retained_columns (query_seq : str) :
  Forall2 (λ i c, query_seq !! i = Some c)
          (Readme.non_gap_positions query_seq) (without_gaps query_seq).
Proof.
  induction query_seq as [|c s IH]; [constructor|].
  rewrite non_gap_positions_cons, without_gaps_cons.
  destruct (Py.not_in c (py ".-")); simpl.
  - constructor; [done|]. by apply Forall2_fmap_l.
  - by apply Forall2_fmap_l.
Qed.

Lemma lookup_columns_unique (s : str) (positions : list nat) (out1 out2 : str) :
  Forall2 (λ i c, s !! i = Some c) positions out1 →
  Forall2 (λ i c, s !! i = Some c) positions out2 →
  out1 = out2.
Proof.
  intros H1. revert out2. induction H1 as [|i c positions out1 Hi _ IH];
    intros out2 H2.
  - by apply Forall2_nil_inv_l in H2.
  - apply Forall2_cons_inv_l in H2 as (c' & out2' & Hi' & H2 & ->).
    f_equal; [congruence | by apply IH].
Qed.

Lemma remove_query_gaps_head query_header query_seq rest out :
  Readme.remove_query_gaps ((query_header, query_seq) :: rest) = Ok out →
  ∃ rest', out = (query_header, without_gaps query_seq) :: rest'
           ∧ Forall (λ r' : record, length r'.2 = length (without_gaps query_seq))
                    rest'.
Proof.
  intros H%remove_query_gaps_Ok.
  apply Forall2_cons_inv_l in H as ([h' q'] & rest' & [Hh Hq] & Hrest & ->).
  simpl in Hh, Hq. subst h'.
  rewrite (lookup_columns_unique _ _ _ _ Hq (query_at_retained_columns query_seq)).
  exists rest'. split; [done|].
  apply Forall_forall. intros r' Hr'.
  apply list_elem_of_lookup in Hr' as [k Hk].
  destruct (Forall2_lookup_r _ _ _ _ _ Hrest Hk) as (r & _ & _ & Hcols).
  apply Forall2_length in Hcols.
  by rewrite <- Hcols, length_non_gap_positions.
Qed.

(** An alignment whose query has no gap and whose records all have the
    length of the query is returned as it is. *)
Lemma remove_query_gaps_fixed query_header query_seq rest :
  Forall (λ c, c ≠ "."%char ∧ c ≠ "-"%char) query_seq →
  Forall (λ r : record, length r.2 = length query_seq) rest →
  Readme.remove_query_gaps ((query_header, query_seq) :: rest)
  = Ok ((query_header, query_seq) :: rest).
Proof.
  intros Hgaps Hrest. apply remove_query_gaps_Ok.
  rewrite non_gap_positions_no_gap
    by (by rewrite non_gap_count_without_gaps, without_gaps_id).
  apply Forall_Forall2_diag. constructor.
  - split; [done | apply lookup_all_columns].
  - eapply Forall_impl; [exact Hrest|]. intros r <-.
    split; [done | apply lookup_all_columns].
Qed.

Lemma remove_query_gaps_related sequences out :
  Readme.remove_query_gaps sequences = Ok out →
  Forall2 (λ r r' : record, r'.1 = r.1 ∧ r'.2 ⊆ r.2) sequences out.
Proof.
  destruct sequences as [|[query_header query_seq] rest].
  - intros [= <-]. constructor.
  - intros H%remove_query_gaps_Ok. eapply Forall2_impl; [exact H|].
    intros r r' [Hlabel Hcols]. split; [done|].
    intros c Hc. apply list_elem_of_lookup in Hc as [j Hj].
    destruct (Forall2_lookup_r _ _ _ _ _ Hcols Hj) as (i & _ & Hi).
    by eapply list_elem_of_lookup_2.
Qed.

(** X1. When [remove_query_gaps] accepts a non-empty alignment, the first
    record of its result is the query with every ['.'] and ['-'] removed
    and nothing else changed: the cleaned query has no gap left. *)
Theorem cleaned_query_has_no_gap query_header query_seq rest out :
  Readme.remove_query_gaps ((query_header, query_seq) :: rest) = Ok out →
  out !! 0 = Some (query_header, without_gaps query_seq)
  ∧ Forall (λ c, c ≠ "."%char ∧ c ≠ "-"%char) (without_gaps query_seq).
Proof.
  intros (rest' & -> & _)%remove_query_gaps_head.
  split; [done | apply without_gaps_no_gap].
Qed.

Lemma cleaned_query_has_no_gap_witness :
  [(py ">ref", py "ACGT"); (py ">s1", py "AGGA")] !! 0
    = Some (py ">ref", without_gaps (py "AC-G.T"))
  ∧ Forall (λ c, c ≠ "."%char ∧ c ≠ "-"%char) (without_gaps (py "AC-G.T")).
Proof.
  apply (cleaned_query_has_no_gap (py ">ref") (py "AC-G.T")
           [(py ">s1", py "AG-GxA")]).
  reflexivity.
Defined.

(** X2. [remove_query_gaps] is idempotent: applied to its own result, it
    succeeds and returns that result unchanged. *)
Theorem remove_query_gaps_idempotent sequences out :
  Readme.remove_query_gaps sequences = Ok out →
  Readme.remove_query_gaps out = Ok out.
Proof.
  destruct sequences as [|[query_header query_seq] rest].
  - by intros [= <-].
  - intros (rest' & -> & Hlen)%remove_query_gaps_head.
    apply remove_query_gaps_fixed; [apply without_gaps_no_gap | done].
Qed.

Lemma remove_query_gaps_idempotent_witness :
  Readme.remove_query_gaps [(py ">ref", py "ACGT"); (py ">s1", py "A-GA")]
  = Ok [(py ">ref", py "ACGT"); (py ">s1", py "A-GA")].
Proof.
  apply (remove_query_gaps_idempotent
           [(py ">ref", py "AC-G.T"); (py ">s1", py "A-xGyAzz")]).
  reflexivity.
Defined.

(** * Reading and writing files *)

(** X3. [read_a2m] returns one record per line that starts with ['>'], in
    the order of the file, and the label of each record is that line
    without its line end. *)
Theorem read_a2m_labels filename (fs : gmap string str) content :
  fs !! filename = Some content →
  ∃ records,
    Readme.read_a2m filename fs = (Ok records, fs)
    ∧ records.*1
      = (λ line, Py.rstrip line [LF; CR])
          <$> List.filter is_header (Py.file_lines content)
    ∧ length records = length (List.filter is_header (Py.file_lines content)).
Proof.
  intros Hfile. eexists. unfold Readme.read_a2m. rewrite Hfile.
  split; [done|].
  assert ((Readme.read_a2m_lines (Py.file_lines content)).*1
          = (λ line, Py.rstrip line [LF; CR])
              <$> List.filter is_header (Py.file_lines content)) as Hlabels
    by (unfold Readme.read_a2m_lines; by rewrite labels_fold).
  split; [done|].
  by rewrite <- (length_fmap fst), Hlabels, length_fmap.
Qed.

Lemma read_a2m_labels_witness :
  ∃ records,
    Readme.read_a2m "aln.a2m"
      {["aln.a2m"%string := text_of ["x"; ">ref"; "AC"; "GT"; ">s1"; "AGGA"]%string]}
    = (Ok records,
       {["aln.a2m"%string := text_of ["x"; ">ref"; "AC"; "GT"; ">s1"; "AGGA"]%string]})
    ∧ records.*1
      = (λ line, Py.rstrip line [LF; CR])
          <$> List.filter is_header
                (Py.file_lines
                   (text_of ["x"; ">ref"; "AC"; "GT"; ">s1"; "AGGA"]%string))
    ∧ length records
      = length (List.filter is_header
                  (Py.file_lines
                     (text_of ["x"; ">ref"; "AC"; "GT"; ">s1"; "AGGA"]%string))).
Proof.
  apply (read_a2m_labels "aln.a2m"). reflexivity.
Defined.

(** X4. [read_a2m] reads record by record: a header line followed by lines
    that are not headers gives the record whose label is the header line
    and whose sequence is these lines joined, all without their line ends,
    and the records of the remaining lines follow, provided these are none
    or begin with a header line. *)
Theorem read_a2m_lines_record_then_rest line body rest :
  is_header line = true →
  Forall (λ line, is_header line = false) body →
  rest = [] ∨ (∃ line' rest', rest = line' :: rest' ∧ is_header line' = true) →
  Readme.read_a2m_lines (line :: body ++ rest)
  = (Py.rstrip line [LF; CR],
     Py.join ((λ line, Py.rstrip line [LF; CR]) <$> body))
    :: Readme.read_a2m_lines rest.
Proof.
  intros Hline Hbody Hrest.
  rewrite (app_comm_cons body), read_a2m_lines_app by done.
  by rewrite read_a2m_lines_one_record.
Qed.

Lemma read_a2m_lines_record_then_rest_witness :
  Readme.read_a2m_lines
    ((py ">ref" ++ [CR; LF])
     :: [py "AC" ++ [LF]; py "GT" ++ [LF]]
     ++ [py ">s1" ++ [LF]; py "AGGA"])
  = (Py.rstrip (py ">ref" ++ [CR; LF]) [LF; CR],
     Py.join ((λ line, Py.rstrip line [LF; CR])
                <$> [py "AC" ++ [LF]; py "GT" ++ [LF]]))
    :: Readme.read_a2m_lines [py ">s1" ++ [LF]; py "AGGA"].
Proof.
  apply (read_a2m_lines_record_then_rest (py ">ref" ++ [CR; LF])
           [py "AC" ++ [LF]; py "GT" ++ [LF]]
           [py ">s1" ++ [LF]; py "AGGA"]).
  - reflexivity.
  - repeat constructor.
  - right. eexists _, _. split; reflexivity.
Defined.

(** X5. Every record that [read_a2m] returns is well formed: its label
    starts with ['>'], and neither its label nor its sequence holds a line
    feed or a carriage return; the file system is left as it was. *)
Theorem read_a2m_well_formed filename (fs fs' : gmap string str) records :
  Readme.read_a2m filename fs = (Ok records, fs') →
  fs' = fs ∧ Forall well_formed records.
Proof.
  unfold Readme.read_a2m. destruct (fs !! filename) as [content|]; [|done].
  intros [= <- <-]. split; [done|].
  apply reader_invariant_save, reader_invariant_fold.
  - split; [constructor|]. split; [done | constructor].
  - apply file_lines_stripped.
Qed.

Lemma read_a2m_well_formed_witness :
  {["aln.a2m"%string := py ">ref" ++ [CR; LF] ++ py "AC" ++ [CR] ++ py "GT"]}
  = ({["aln.a2m"%string := py ">ref" ++ [CR; LF] ++ py "AC" ++ [CR] ++ py "GT"]}
     : gmap string str)
  ∧ Forall well_formed [(py ">ref", py "ACGT")].
Proof.
  apply (read_a2m_well_formed "aln.a2m"). reflexivity.
Defined.

(** X6. Writing well-formed records with [write_a2m] and reading the file
    back with [read_a2m] gives the same records, provided no line of 80
    written for a sequence starts with ['>']. *)
Theorem write_a2m_then_read_a2m sequences filename (fs : gmap string str) :
  Forall well_formed sequences →
  Forall (λ r : record, wraps_cleanly r.2) sequences →
  (Readme.write_a2m sequences filename ;; Readme.read_a2m filename) fs
  = (Ok sequences, <[filename := Readme.write_a2m_text sequences]> fs).
Proof.
  intros Hwf Hwrap.
  unfold mbind, io_bind, Readme.write_a2m, Readme.read_a2m.
  rewrite lookup_insert_eq.
  by rewrite file_lines_written, read_a2m_lines_written.
Qed.

Lemma no_gt_wraps_cleanly (s : str) : ">"%char ∉ s → wraps_cleanly s.
Proof. intros Hs k Hk. apply Hs. by eapply list_elem_of_lookup_2. Qed.

Lemma write_a2m_then_read_a2m_witness :
  (Readme.write_a2m [(py ">ref", py "ACGT"); (py ">s1", [])] "aln.a2m" ;;
   Readme.read_a2m "aln.a2m") ∅
  = (Ok [(py ">ref", py "ACGT"); (py ">s1", [])],
     <["aln.a2m"%string :=
         Readme.write_a2m_text [(py ">ref", py "ACGT"); (py ">s1", [])]]> ∅).
Proof.
  apply (write_a2m_then_read_a2m [(py ">ref", py "ACGT"); (py ">s1", [])]).
  - repeat constructor; by apply (bool_decide_unpack _).
  - repeat constructor; apply no_gt_wraps_cleanly; by apply (bool_decide_unpack _).
Defined.

(** Without the proviso the records are not read back: a ['>'] in column
    80 of a sequence starts a line of the file written, which is read as
    the header of another record. *)
Example write_a2m_then_read_a2m_gt_at_80 :
  Readme.read_a2m_lines
    (Py.file_lines
       (Readme.write_a2m_text
          [(py ">ref", replicate 80 "A"%char ++ py ">CG")]))
  = [(py ">ref", replicate 80 "A"%char); (py ">CG", [])].
Proof. vm_compute. reflexivity. Qed.

(** * The two entry points *)








Lemma read_a2m_lines_well_formed (content : str) :
  Forall well_formed (Readme.read_a2m_lines (Py.file_lines content)).
Proof.
  apply reader_invariant_save, reader_invariant_fold.
  - split; [constructor|]. split; [done | constructor].
  - apply file_lines_stripped.
Qed.

Lemma cleaned_well_formed sequences out :
  Readme.remove_query_gaps sequences = Ok out →
  Forall well_formed sequences → Forall well_formed out.
Proof.
  intros H%remove_query_gaps_related Hwf.
  induction H as [|r r' sequences out [Hlabel Hsub] _ IH]; [done|].
  apply Forall_cons in Hwf as [(Hstart & Hl & [HLF HCR]) Hwf].
  constructor; [|by apply IH].
  split; [by rewrite Hlabel|]. split; [by rewrite Hlabel|].
  split; intros ?%Hsub; done.
Qed.

Lemma cleaned_wraps_cleanly sequences out :
  Readme.remove_query_gaps sequences = Ok out →
  Forall (λ r : record, ">"%char ∉ r.2) sequences →
  Forall (λ r : record, wraps_cleanly r.2) out.
Proof.
  intros H%remove_query_gaps_related Hgt.
  induction H as [|r r' sequences out [_ Hsub] _ IH]; [done|].
  apply Forall_cons in Hgt as [Hr Hgt].
  constructor; [|by apply IH].
  apply no_gt_wraps_cleanly. by intros ?%Hsub.
Qed.

(** The file written for a cleaned alignment reads back as that
    alignment. *)
Lemma cleaned_file_reads_back (content : str) cleaned :
  Readme.remove_query_gaps (Readme.read_a2m_lines (Py.file_lines content))
    = Ok cleaned →
  Forall (λ r : record, ">"%char ∉ r.2)
         (Readme.read_a2m_lines (Py.file_lines content)) →
  Readme.read_a2m_lines (Py.file_lines (Readme.write_a2m_text cleaned))
  = cleaned.
Proof.
  intros Hclean Hgt.
  pose proof (cleaned_well_formed _ _ Hclean (read_a2m_lines_well_formed content)).
  pose proof (cleaned_wraps_cleanly _ _ Hclean Hgt).
  by rewrite file_lines_written, read_a2m_lines_written.
Qed.



(** ** The script's [main] *)

Lemma main_run input output (fs : gmap string str) :
  Script.main input output fs
  = match fs !! input with
    | None => (Script.Uncaught FileNotFoundError, fs)
    | Some content =>
        match Readme.read_a2m_lines (Py.file_lines content) with
        | [] => (Script.SystemExit 1, fs)
        | r :: rest =>
            match Readme.remove_query_gaps (r :: rest) with
            | Ok [] => (Script.Uncaught IndexError, fs)
            | Ok (r' :: rest') =>
                (Script.Returned,
                 <[output := Readme.write_a2m_text (r' :: rest')]> fs)
            | Raise e => (Script.Uncaught e, fs)
            end
        end
    end.
Proof.
  unfold Script.main, Script.read_a2m.
  destruct (fs !! input) as [content|]; [|done].
  rewrite read_a2m_lines_same.
  destruct (Readme.read_a2m_lines (Py.file_lines content)) as [|r rest]; [done|].
  unfold mbind, io_bind, lift.
  change (Script.remove_query_gaps (r :: rest))
    with (Readme.remove_query_gaps (r :: rest)).
  destruct (Readme.remove_query_gaps (r :: rest)) as [[|r' rest']|e];
    reflexivity.
Qed.



(** X10. Cleaning a cleaned file changes nothing: when a run of [main]
    returns normally on an input whose sequences hold no ['>'], a second
    run on the file it wrote returns normally too and writes the same
    text. *)
Theorem main_twice input output output' (fs fs1 : gmap string str) content :
  fs !! input = Some content →
  Forall (λ r : record, ">"%char ∉ r.2)
         (Script.read_a2m_lines (Py.file_lines content)) →
  Script.main input output fs = (Script.Returned, fs1) →
  ∃ text,
    fs1 !! output = Some text
    ∧ Script.main output output' fs1
      = (Script.Returned, <[output' := text]> fs1).
Proof.
  intros Hfile Hgt. rewrite read_a2m_lines_same in Hgt.
  rewrite main_run, Hfile.
  destruct (Readme.read_a2m_lines (Py.file_lines content))
    as [|r rest] eqn:Hparse; [done|].
  destruct (Readme.remove_query_gaps (r :: rest))
    as [[|r' rest']|e] eqn:Hclean; [done| |done].
  intros [= <-]. exists (Readme.write_a2m_text (r' :: rest')).
  split; [by rewrite lookup_insert_eq|].
  rewrite main_run, lookup_insert_eq.
  rewrite <- Hparse in Hclean, Hgt.
  rewrite (cleaned_file_reads_back content _ Hclean Hgt).
  assert (Readme.remove_query_gaps (r' :: rest') = Ok (r' :: rest')) as ->;
    [|done].
  rewrite Hparse in Hclean. destruct r as [query_header query_seq].
  apply remove_query_gaps_head in Hclean as (rest'' & [= -> ->] & Hlen).
  apply remove_query_gaps_fixed; [apply without_gaps_no_gap | done].
Qed.

Lemma main_twice_witness :
  let fs : gmap string str :=
    {["in.a2m"%string := text_of [">ref"; "A-C"; ">s1"; "AXC"]%string]} in
  let fs1 : gmap string str :=
    <["out.a2m"%string := text_of [">ref"; "AC"; ">s1"; "AC"]%string]> fs in
  ∃ text,
    fs1 !! "out.a2m"%string = Some text
    ∧ Script.main "out.a2m" "again.a2m" fs1
      = (Script.Returned, <["again.a2m"%string := text]> fs1).
Proof.
  intros fs fs1.
  apply (main_twice "in.a2m" "out.a2m" "again.a2m" fs fs1
           (text_of [">ref"; "A-C"; ">s1"; "AXC"]%string)).
  - reflexivity.
  - repeat constructor; by apply (bool_decide_unpack _).
  - reflexivity.
Defined.

(** X11. Once the converter has succeeded and left an [a2m_file],
    [convert_a3m_to_a2m] does to the file system what the script's [main]
    does when run in place on that file, and fails with the same
    exception; the two differ only on a file without any record, where
    [convert_a3m_to_a2m] returns normally and [main] calls
    [sys.exit(1)]. *)
Theorem convert_a3m_to_a2m_as_main REFORMAT_PL subprocess_run a3m_file a2m_file
    (fs fs1 fs2 fs2' : gmap string str) content r2 o :
  subprocess_run [REFORMAT_PL; "a3m"; "a2m"; a3m_file; a2m_file]%string fs
    = (Ok tt, fs1) →
  fs1 !! a2m_file = Some content →
  Readme.convert_a3m_to_a2m REFORMAT_PL subprocess_run a3m_file a2m_file fs
    = (r2, fs2) →
  Script.main a2m_file a2m_file fs1 = (o, fs2') →
  fs2' = fs2
  ∧ o = match r2 with
        | Raise e => Script.Uncaught e
        | Ok _ =>
            match Readme.read_a2m_lines (Py.file_lines content) with
            | [] => Script.SystemExit 1
            | _ :: _ => Script.Returned
            end
        end.
Proof.
  intros Hrun Hfile.
  rewrite (convert_a3m_to_a2m_after _ _ _ _ _ _ _ Hrun Hfile).
  rewrite main_run, Hfile.
  destruct (Readme.read_a2m_lines (Py.file_lines content)) as [|r rest].
  - by intros [= <- <-] [= <- <-].
  - destruct (Readme.remove_query_gaps (r :: rest)) as [[|r' rest']|e];
      by intros [= <- <-] [= <- <-].
Qed.

Lemma convert_a3m_to_a2m_as_main_witness :
  let produce : list string → io unit :=
    λ _ fs, (Ok tt, <["aln.a2m"%string := text_of [">ref"; "AC"; ">s1"; "A"]%string]> fs) in
  let fs1 : gmap string str :=
    {["aln.a2m"%string := text_of [">ref"; "AC"; ">s1"; "A"]%string]} in
  fs1 = fs1
  ∧ Script.Uncaught IndexError
    = match @Raise unit IndexError with
      | Raise e => Script.Uncaught e
      | Ok _ =>
          match Readme.read_a2m_lines
                  (Py.file_lines (text_of [">ref"; "AC"; ">s1"; "A"]%string)) with
          | [] => Script.SystemExit 1
          | _ :: _ => Script.Returned
          end
      end.
Proof.
  intros produce fs1.
  apply (convert_a3m_to_a2m_as_main "reformat.pl" produce "aln.a3m" "aln.a2m"
           ∅ fs1 fs1 fs1 (text_of [">ref"; "AC"; ">s1"; "A"]%string));
    reflexivity.
Defined.
